(** * fever-nli: input pipeline ([input_da.py]) and training driver ([main.py])

    A shallow embedding of the two Python modules of the repository.
    Python values that come out of [json.load] or [argparse] are the
    inductive [pyval]; exceptions are explicit ([result]); the effects of
    the code (opening files, printing, reading CSV chunks) are threaded
    through a small state-and-error monad [io] over a [world].

    The third-party libraries (scikit-learn, TensorFlow, pandas) are not
    code of this repository: what the program needs of them is taken as an
    interface ([Sklearn], Section variables) and every result holds for
    all implementations of it. *)

From Stdlib Require Import ZArith List String Ascii Bool Lia Floats Uint63.
Import ListNotations.
Open Scope string_scope.
Open Scope Z_scope.

Set Implicit Arguments.

(** ** Python values and exceptions *)

(** What [json.load] and [argparse] produce: [None], [bool], [int], [float],
    [str], [list] and [dict] (insertion-ordered, keys are strings).  A [str]
    is a sequence of characters, one [ascii] each. *)
#[warnings="-register-all"]
Inductive pyval : Type :=
| PNone
| PBool (b : bool)
| PInt (z : Z)
| PFloat (f : float)
| PStr (s : string)
| PList (l : list pyval)
| PDict (kvs : list (string * pyval)).

(** The exception classes the modelled code can raise. *)
Inductive exn : Type :=
| TypeError
| KeyError
| ValueError
| AttributeError
| UnboundLocalError
| FileNotFoundError
| JSONDecodeError.

Inductive result (A : Type) : Type :=
| OK (a : A)
| Raise (e : exn).

Arguments OK {A} a.
Arguments Raise {A} e.

(** ** The world the program runs in *)

(** A file is absent, or present with a content that [json.load] parses to
    a value or rejects. *)
Inductive file_outcome : Type :=
| Absent
| Content (parse : option pyval).

Inductive event : Type :=
| EvOpen (file : string)
| EvPrint (args : list pyval)
| EvReadCsv (file : string) (skiprows skipfooter : pyval).

Record world : Type := World {
  fs : string -> file_outcome;
  log : list event
}.

(** State and exceptions: a computation maps the state before to a result
    or a raised exception, and the state after. *)
Definition st (S A : Type) : Type := S -> result A * S.

Abbreviation io := (st world).

Class Monad (m : Type -> Type) : Type := {
  ret : forall A : Type, A -> m A;
  bind : forall A B : Type, m A -> (A -> m B) -> m B
}.

Arguments ret {m _ A} _.
Arguments bind {m _ A B} _ _.

#[export] Instance result_monad : Monad result := {
  ret := fun A a => OK a;
  bind := fun A B c k => match c with OK a => k a | Raise e => Raise e end
}.

#[export] Instance st_monad (S : Type) : Monad (st S) := {
  ret := fun A a w => (OK a, w);
  bind := fun A B c k w =>
    match c w with
    | (OK a, w') => k a w'
    | (Raise e, w') => (Raise e, w')
    end
}.

Declare Scope monad_scope.
Delimit Scope monad_scope with monad.
Notation "x <- c ;; k" := (bind c (fun x => k))
  (at level 61, c at next level, right associativity) : monad_scope.
Notation "' p <- c ;; k" := (bind c (fun x => let p := x in k))
  (at level 61, p pattern, c at next level, right associativity) : monad_scope.
Notation "c ;;; k" := (bind c (fun _ => k))
  (at level 61, right associativity) : monad_scope.
Open Scope monad_scope.

(** A pure, fallible computation run inside [io]. *)
Definition lift {S A : Type} (r : result A) : st S A := fun w => (r, w).

Definition emit (e : event) : io unit :=
  fun w => (OK tt, World (fs w) (log w ++ [e])).

(** [for x in l: st = body st x], stopping at the first exception. *)
Fixpoint for_each {m : Type -> Type} {Mm : Monad m} {A S : Type}
    (body : S -> A -> m S) (l : list A) (st : S) : m S :=
  match l with
  | [] => ret st
  | x :: l' => st' <- body st x ;; for_each body l' st'
  end.

(** ** Python operations used by the code *)

Fixpoint lookup (key : string) (kvs : list (string * pyval)) : option pyval :=
  match kvs with
  | [] => None
  | (k, v) :: kvs' => if String.eqb k key then Some v else lookup key kvs'
  end.

(** [v[key]] for a string [key]: a [dict] is looked up ([KeyError] when the
    key is missing); a [list] or a [str] takes integer indices only and the
    other values are not subscriptable ([TypeError]). *)
Definition py_getitem (v : pyval) (key : string) : result pyval :=
  match v with
  | PDict kvs =>
      match lookup key kvs with
      | Some x => OK x
      | None => Raise KeyError
      end
  | _ => Raise TypeError
  end.

Fixpoint chars (s : string) : list pyval :=
  match s with
  | EmptyString => []
  | String c s' => PStr (String c EmptyString) :: chars s'
  end.

(** [iter(v)] run to the end: the elements of a [list], the characters of a
    [str], the keys of a [dict]; the other values are not iterable. *)
Definition py_iter (v : pyval) : result (list pyval) :=
  match v with
  | PList l => OK l
  | PStr s => OK (chars s)
  | PDict kvs => OK (map (fun kv => PStr (fst kv)) kvs)
  | _ => Raise TypeError
  end.

(** [concat += v] for a [str] variable [concat]. *)
Definition py_iadd_str (concat : string) (v : pyval) : result string :=
  match v with
  | PStr s => OK (concat ++ s)
  | _ => Raise TypeError
  end.

(** [mode == 'train'] and the like. *)
Definition py_eq_str (v : pyval) (s : string) : bool :=
  match v with
  | PStr s' => String.eqb s' s
  | _ => false
  end.

(** ** [input_da.py]: the NLI loader *)

Module InputDa.

(** The four accumulators of [get_claim_evidence_pairs] (line 92).
    [label_list] is a Python variable, first bound to [[]] and then re-bound
    by the assignment of line 108, so it holds an arbitrary value. *)
Record pairs_state : Type := PairsState {
  claim_list : list pyval;
  evidence_list : list pyval;
  label_list : pyval;
  document_list : list string
}.

Definition pairs_init : pairs_state := PairsState [] [] (PList []) [].

(** Lines 95-97: [concat = ""; for evidence in claim_set["evidence"]:
    concat += evidence]. *)
Definition concat_evidences (claim_set : pyval) : result string :=
  ev <- py_getitem claim_set "evidence" ;;
  evs <- py_iter ev ;;
  for_each py_iadd_str evs "".

(** Lines 94-108: one turn of [for claim_set in dict]. *)
Definition pairs_step (concat_evidence : bool) (st : pairs_state)
    (claim_set : pyval) : result pairs_state :=
  concat <- concat_evidences claim_set ;;
  entry <- (if concat_evidence then OK (PStr concat)
            else py_getitem claim_set "evidence") ;;
  claim <- py_getitem claim_set "claim" ;;
  claim' <- py_getitem claim_set "claim" ;;
  concat' <- py_iadd_str concat claim' ;;
  label <- py_getitem claim_set "label" ;;
  OK (PairsState (claim_list st ++ [claim])
                 (evidence_list st ++ [entry])
                 label
                 (document_list st ++ [concat'])).

(** Lines 92-108: the accumulators after the loop over [items]. *)
Definition pairs_loop (concat_evidence : bool) (items : list pyval)
    : result pairs_state :=
  for_each (pairs_step concat_evidence) items pairs_init.

Definition nl : string := String (ascii_of_nat 10) EmptyString.

(** Lines 89-110.  The parameter [mode] is never read. *)
Definition get_claim_evidence_pairs (dict : pyval) (mode : pyval)
    (concat_evidence : bool)
    : io (list pyval * list pyval * list string * pyval) :=
  c <- lift (py_getitem dict "claim") ;;
  e <- lift (py_getitem dict "evidence") ;;
  emit (EvPrint [PStr (nl ++ "claim" ++ nl); c;
                 PStr (nl ++ nl ++ "evidence" ++ nl); e]) ;;;
  items <- lift (py_iter dict) ;;
  st <- lift (pairs_loop concat_evidence items) ;;
  ret (claim_list st, evidence_list st, document_list st, label_list st).

(** [open(file, "r")] followed by [json.load] (lines 68-69). *)
Definition open_json (file : string) : io pyval :=
  emit (EvOpen file) ;;;
  (fun w => match fs w file with
            | Absent => (Raise FileNotFoundError, w)
            | Content None => (Raise JSONDecodeError, w)
            | Content (Some v) => (OK v, w)
            end).

(** What the program uses of scikit-learn.  A fitted vectorizer turns each
    document into a row on its own; fitting can fail ([ValueError] on an
    empty vocabulary).  [cosine] is the cosine similarity of two rows, a
    floating-point number left abstract. *)
Class Sklearn : Type := {
  tf_model : Type;
  tfidf_model : Type;
  row : Type;
  sim : Type;
  TFVec_fit : list string -> result tf_model;
  TFIDFVec_fit : list string -> result tfidf_model;
  tf_row : tf_model -> string -> row;
  tfidf_row : tfidf_model -> string -> row;
  cosine : row -> row -> sim
}.

Section Loader.
Context {SK : Sklearn}.

(** [vectorizer.transform(docs)]: one row per document; a document that is
    not a [str] has no [lower] method. *)
Fixpoint transform (to_row : string -> row) (docs : list pyval)
    : result (list row) :=
  match docs with
  | [] => OK []
  | PStr s :: docs' =>
      rows <- transform to_row docs' ;; OK (to_row s :: rows)
  | _ :: _ => Raise AttributeError
  end.

(** [sklearn.metrics.pairwise.cosine_similarity(X, Y)]: the matrix of the
    similarities of every row of [X] with every row of [Y]; an input with no
    row is rejected. *)
Definition cosine_similarity (X Y : list row) : result (list (list sim)) :=
  match X, Y with
  | [], _ | _, [] => Raise ValueError
  | _, _ => OK (map (fun x => map (cosine x) Y) X)
  end.

(** The tuple of line 87: [tf_claim, tfidf_sim, tf_evidence, label]. *)
Record nli_tuple : Type := NliTuple {
  t_claim : row;
  t_sim : list sim;
  t_evidence : row;
  t_label : pyval
}.

(** [zip] of line 85 with the tuple of line 87 built from each quadruple;
    it stops with the shortest argument. *)
Fixpoint zip_yield (cs es : list row) (ss : list (list sim))
    (ls : list pyval) : list nli_tuple :=
  match cs, es, ss, ls with
  | c :: cs', e :: es', s :: ss', l :: ls' =>
      NliTuple c s e l :: zip_yield cs' es' ss' ls'
  | _, _, _, _ => []
  end.

(** Lines 73-87 of [load_nli]: everything after [get_claim_evidence_pairs]
    has returned.  The result is the list of the tuples the generator
    yields; every statement that can raise runs before the first [yield]. *)
Definition load_nli_vectorize (claims evidences : list pyval)
    (documents : list string) (labels : pyval) : result (list nli_tuple) :=
  tf_vec <- TFVec_fit documents ;;
  tfidf_vec <- TFIDFVec_fit documents ;;
  tf_claims <- transform (tf_row tf_vec) claims ;;
  tf_evidences <- transform (tf_row tf_vec) evidences ;;
  tfidf_claims <- transform (tfidf_row tfidf_vec) claims ;;
  tfidf_evidences <- transform (tfidf_row tfidf_vec) evidences ;;
  tfidf_sims <- cosine_similarity tfidf_claims tfidf_evidences ;;
  ls <- py_iter labels ;;
  OK (zip_yield tf_claims tf_evidences tfidf_sims ls).

(** Lines 61-87: the generator [load_nli(file)] run until it is exhausted
    or raises. *)
Definition load_nli (file : string) : io (list nli_tuple) :=
  data <- open_json file ;;
  '(claims, evidences, documents, labels) <-
     get_claim_evidence_pairs data (PStr "concat") true ;;
  lift (load_nli_vectorize claims evidences documents labels).

(** *** The input-function factories *)

(** What [ds_gen] is bound to: the generator object a call of [load_nli]
    creates (its body has not started to run), or a plain value. *)
Inductive ds_gen : Type :=
| Generator (body : io (list nli_tuple))
| Plain (v : pyval).

(** TensorFlow and pandas.  [tf_pipeline] stands for lines 51-57 (and
    134-140): [Dataset.from_generator(ds_gen, ...)] up to [get_next()];
    [pd_read_csv file skiprows skipfooter] for [pd.read_csv].  Entering
    [tf.device('/cpu:0')] is taken to raise nothing. *)
Variable tensors : Type.
Variable tf_pipeline : ds_gen -> io tensors.
Variable pd_read_csv : string -> pyval -> pyval -> io unit.

(** What an [_input_fn] returns: [None] or the tensors of [get_next()]. *)
Inductive fn_value : Type :=
| FnNone
| FnTensors (t : tensors).

(** An [_input_fn(mode=None, params=None)]; an argument left out in a call
    is its default [PNone]. *)
Definition input_fn : Type := pyval -> pyval -> io fn_value.

Definition call_without_arguments (f : input_fn) : io fn_value :=
  f PNone PNone.

(** Lines 144-157.  The function has no [yield]: a call runs the body. *)
Definition load_fever_chunk (file : string) (chunk_size : pyval) : io pyval :=
  for_each (fun (_ : unit) (be : pyval * pyval) =>
              let (begin, end_) := be in pd_read_csv file begin end_)
           [] tt ;;;
  ret PNone.

(** Lines 11-28.  The inner [mode] hides the factory's. *)
Definition get_input_fn (mode : pyval) : input_fn :=
  fun (mode params : pyval) =>
    dataset <- (if py_eq_str mode "train" then ret FnNone
                else if py_eq_str mode "eval" || py_eq_str mode "predict"
                then ret FnNone
                else lift (Raise ValueError)) ;;
    ret dataset.

(** Lines 43-48: the choice of the generator in [get_input_fn_nli]. *)
Definition dispatch_nli (mode : pyval) : io ds_gen :=
  if py_eq_str mode "train" then ret (Generator (load_nli "example_train."))
  else if py_eq_str mode "eval" || py_eq_str mode "predict"
  then ret (Generator (load_nli "example_dev.csv"))
  else lift (Raise ValueError).

(** Lines 34-59. *)
Definition get_input_fn_nli (mode : pyval) : input_fn :=
  fun (mode params : pyval) =>
    ds_gen <- dispatch_nli mode ;;
    t <- tf_pipeline ds_gen ;;
    ret (FnTensors t).

(** Lines 126-131: the choice of the generator in [get_input_fn_fever]. *)
Definition dispatch_fever (mode : pyval) : io ds_gen :=
  if py_eq_str mode "train"
  then v <- load_fever_chunk "example_train.csv" (PInt 2) ;; ret (Plain v)
  else if py_eq_str mode "eval" || py_eq_str mode "predict"
  then v <- load_fever_chunk "example_dev.csv" (PInt 2) ;; ret (Plain v)
  else lift (Raise ValueError).

(** Lines 117-142. *)
Definition get_input_fn_fever (mode : pyval) : input_fn :=
  fun (mode params : pyval) =>
    ds_gen <- dispatch_fever mode ;;
    t <- tf_pipeline ds_gen ;;
    ret (FnTensors t).

(** The tuples a run of the generator has yielded. *)
Definition yielded {A : Type} (r : result (list A) * world) : list A :=
  match fst r with
  | OK l => l
  | Raise _ => []
  end.

End Loader.

Arguments FnNone {tensors}.
Arguments FnTensors {tensors} t.

End InputDa.

(** ** [main.py]: the command line and the training driver *)

Module MainPy.
Import InputDa.

(** *** The argument parser (lines 113-188) *)

Inductive arg_type : Type := TInt | TStr | TFloat.

(** One [parser.add_argument(...)]; [help] is left out, a missing
    [default] is [None], missing [choices] are [None], a missing
    [required] is [False]. *)
Record argument : Type := Argument {
  option_strings : list string;
  type_ : arg_type;
  choices : option (list Z);
  required : bool;
  default : pyval;
  dest : string
}.

(** The [float] that the literal [5e-4] of line 178 denotes. *)
Definition learning_rate_default : float := 0x1.0624dd2f1a9fcp-11.

Definition parser : list argument := [
  Argument ["-m"; "--model"] TInt (Some [1; 2]) true PNone "model_type";
  Argument ["-i"; "--data-dir"] TStr None true PNone "data_dir";
  Argument ["-o"; "--output-dir"] TStr None true PNone "output_dir";
  Argument ["-j"; "--job-id"] TInt None true PNone "job_id";
  Argument ["-a"; "--array-job"] TInt None false (PInt 1) "repeats";
  Argument ["-n"; "--num-gpus"] TInt None false (PInt 1) "num_gpus";
  Argument ["-c"; "--num-cpu-cores"] TInt None false (PInt 4) "num_cores";
  Argument ["-s"; "--train-steps"] TInt None false (PInt 100) "train_steps";
  Argument ["-b"; "--batch-size"] TInt None false (PInt 128) "batch_size";
  Argument ["-e"; "--eval-batch-size"] TInt None false (PInt 128)
           "eval_batch_size";
  Argument ["-l"; "--learning-rate"] TFloat None false
           (PFloat learning_rate_default) "learning_rate";
  Argument ["-u"; "--cutoff"] TInt None false (PInt 500) "cutoff_len"
].

(** [vars(args)]: the attributes of the namespace, in the order they were
    set. *)
Definition namespace : Type := list (string * pyval).

(** How [parse_args] ends: with a namespace, or by leaving the program
    (usage error or help).  [Unmodelled] marks the command lines this model
    of [argparse] does not cover: an option given as a prefix of its long
    name, as [--opt=value] or with the value attached ([-m1]), the [--]
    separator, and any other unknown token that starts with [-]. *)
Inductive parse_outcome : Type :=
| Parsed (ns : namespace)
| Exited
| Unmodelled.

Inductive token_class : Type :=
| Option_ (a : argument)
| Help
| Value
| Other.

Definition is_digit (c : ascii) : bool :=
  let n := nat_of_ascii c in (48 <=? n)%nat && (n <=? 57)%nat.

Fixpoint all_digits (s : string) : bool :=
  match s with
  | EmptyString => true
  | String c s' => is_digit c && all_digits s'
  end.

(** Digits, then [.] and at least one digit. *)
Fixpoint digits_dot_digits (s : string) : bool :=
  match s with
  | EmptyString => false
  | String c s' =>
      if Ascii.eqb c "."%char
      then negb (String.eqb s' "") && all_digits s'
      else is_digit c && digits_dot_digits s'
  end.

(** [argparse]'s pattern for a negative number: [-\d+] or [-\d*\.\d+]. *)
Definition negative_number (s : string) : bool :=
  match s with
  | String "-"%char s' =>
      (negb (String.eqb s' "") && all_digits s') || digits_dot_digits s'
  | _ => false
  end.

Definition find_action (p : list argument) (tok : string) : option argument :=
  find (fun a => existsb (String.eqb tok) (option_strings a)) p.

Definition classify (p : list argument) (tok : string) : token_class :=
  match find_action p tok with
  | Some a => Option_ a
  | None =>
      if String.eqb tok "-h" || String.eqb tok "--help" then Help
      else match tok with
           | String "-"%char EmptyString => Value
           | String "-"%char _ => if negative_number tok then Value else Other
           | _ => Value
           end
  end.

Fixpoint set_attr (ns : namespace) (name : string) (v : pyval) : namespace :=
  match ns with
  | [] => [(name, v)]
  | (k, x) :: ns' =>
      if String.eqb k name then (k, v) :: ns'
      else (k, x) :: set_attr ns' name v
  end.

Section ParseArgs.

(** Python's [int(s)] and [float(s)] on a string; [None] when they raise
    [ValueError]. *)
Variable py_int : string -> option Z.
Variable py_float : string -> option float.

Definition convert (t : arg_type) (s : string) : option pyval :=
  match t with
  | TInt => option_map PInt (py_int s)
  | TStr => Some (PStr s)
  | TFloat => option_map PFloat (py_float s)
  end.

Definition in_choices (a : argument) (v : pyval) : bool :=
  match choices a, v with
  | None, _ => true
  | Some cs, PInt z => existsb (Z.eqb z) cs
  | Some _, _ => false
  end.

(** The command line is read from left to right.  [seen] collects the
    [dest] of the options met, [extras] tells whether a token that belongs
    to no option was met. *)
Fixpoint parse_tokens (p : list argument) (toks : list string)
    (ns : namespace) (seen : list string) (extras : bool)
    : parse_outcome :=
  match toks with
  | [] =>
      if forallb (fun a => negb (required a)
                           || existsb (String.eqb (dest a)) seen) p
         && negb extras
      then Parsed ns else Exited
  | tok :: rest =>
      match classify p tok with
      | Option_ a =>
          match rest with
          | [] => Exited
          | arg :: rest' =>
              match classify p arg with
              | Value =>
                  match convert (type_ a) arg with
                  | Some v =>
                      if in_choices a v
                      then parse_tokens p rest' (set_attr ns (dest a) v)
                                        (dest a :: seen) extras
                      else Exited
                  | None => Exited
                  end
              | Other => Unmodelled
              | _ => Exited
              end
          end
      | Help => Exited
      | Value => parse_tokens p rest ns seen true
      | Other => Unmodelled
      end
  end.

Definition parse_args (p : list argument) (argv : list string)
    : parse_outcome :=
  parse_tokens p argv (map (fun a => (dest a, default a)) p) [] false.

End ParseArgs.

(** *** The driver (lines 52-109) *)

(** [v == n] for an [int] literal [n] (here 1 or 2): [True == 1] and
    [1.0 == 1] hold in Python. *)
Definition py_eq_int (v : pyval) (n : Z) : bool :=
  match v with
  | PInt z => Z.eqb z n
  | PBool b => Z.eqb (if b then 1 else 0) n
  | PFloat f => PrimFloat.eqb f (PrimFloat.of_uint63 (Uint63.of_Z n))
  | _ => false
  end.

(** [range(v)]: [v] has to be an [int] ([bool] included). *)
Definition py_range (v : pyval) : result (list Z) :=
  match v with
  | PInt n => OK (map Z.of_nat (seq 0 (Z.to_nat n)))
  | PBool b => OK (if b then [0] else [])
  | _ => Raise TypeError
  end.

(** [tf.estimator.ModeKeys]. *)
Definition ModeKeys_TRAIN : pyval := PStr "train".
Definition ModeKeys_EVAL : pyval := PStr "eval".

(** [tf.contrib.training.HParams], called with the dictionary unpacked into
    keyword arguments, holds one hyperparameter per keyword. *)
Definition HParams (kwargs : namespace) : namespace := kwargs.

(** The arguments of [RunConfig] and [ConfigProto] that depend on the
    hyperparameters; the others are constants.  [model_dir] is kept as the
    parts the path is built from: [output_dir], [job_id] and [i+1]. *)
Record run_config : Type := RunConfig {
  model_dir : string * pyval * Z;
  device_count : pyval * pyval;
  keep_checkpoint_max : Z
}.

Section Driver.
Variable tensors : Type.

(** The calls into the framework, in the order [main] makes them.  They are
    taken to return normally. *)
Inductive tf_call : Type :=
| Estimator_ (config : run_config) (params : namespace)
| TrainAndEvaluate (train_input_fn : input_fn tensors) (max_steps : pyval)
                   (eval_input_fn : input_fn tensors)
| Evaluate (test_input_fn : input_fn tensors).

(** Names [main.py] imports and the sources do not define, and Python's
    [int(x / 500)], a floating-point division. *)
Variable get_input_fn_fnc : pyval -> input_fn tensors.
Variable get_input_fn_da : pyval -> input_fn tensors.
Variable py_int_truediv_500 : pyval -> result Z.

Definition call (c : tf_call) : st (list tf_call) unit :=
  fun trace => (OK tt, (trace ++ [c])%list).

Definition item (hparams : namespace) (key : string)
    : st (list tf_call) pyval :=
  lift (py_getitem (PDict hparams) key).

(** Lines 93-96: the local variable [get_input_fn] stays unbound when the
    model type is neither 1 nor 2. *)
Definition select_input_fn (hparams : namespace)
    : st (list tf_call) (option (pyval -> input_fn tensors)) :=
  model_type <- item hparams "model_type" ;;
  if py_eq_int model_type 1 then ret (Some get_input_fn_fnc)
  else
    model_type' <- item hparams "model_type" ;;
    if py_eq_int model_type' 2 then ret (Some get_input_fn_da)
    else ret None.

Definition use (get_input_fn : option (pyval -> input_fn tensors))
    (mode : pyval) : st (list tf_call) (input_fn tensors) :=
  match get_input_fn with
  | Some factory => ret (factory mode)
  | None => lift (Raise UnboundLocalError)
  end.

(** Lines 71-108: one turn of the loop over [range(hparams['repeats'])]. *)
Definition iteration (hparams : namespace) (num_cores num_gpus : pyval)
    (i : Z) : st (list tf_call) unit :=
  output_dir <- item hparams "output_dir" ;;
  job_id <- item hparams "job_id" ;;
  dir <- lift (match output_dir with
               | PStr d => OK (d, job_id, i + 1)
               | _ => Raise TypeError
               end) ;;
  train_steps <- item hparams "train_steps" ;;
  k <- lift (py_int_truediv_500 train_steps) ;;
  call (Estimator_ (RunConfig dir (num_cores, num_gpus) (k + 1))
                   (HParams hparams)) ;;;
  get_input_fn <- select_input_fn hparams ;;
  train_fn <- use get_input_fn ModeKeys_TRAIN ;;
  max_steps <- item hparams "train_steps" ;;
  eval_fn <- use get_input_fn ModeKeys_EVAL ;;
  call (TrainAndEvaluate train_fn max_steps eval_fn) ;;;
  test_fn <- use get_input_fn (PStr "predict") ;;
  call (Evaluate test_fn).

(** Lines 52-109; logging is left out. *)
Definition main (hparams : namespace) : st (list tf_call) unit :=
  num_cores <- item hparams "num_cores" ;;
  num_gpus <- item hparams "num_gpus" ;;
  repeats <- item hparams "repeats" ;;
  turns <- lift (py_range repeats) ;;
  for_each (fun (_ : unit) (i : Z) => iteration hparams num_cores num_gpus i)
           turns tt.

(** Lines 111-190: [main] is called with [vars(parser.parse_args())]
    unpacked into keyword arguments.  [None] when
    [parse_args] leaves the program or the command line is not covered. *)
Definition script (py_int : string -> option Z)
    (py_float : string -> option float) (argv : list string)
    : option (result unit * list tf_call) :=
  match parse_args py_int py_float parser argv with
  | Parsed ns => Some (main ns [])
  | _ => None
  end.

End Driver.

Arguments Estimator_ {tensors} config params.
Arguments TrainAndEvaluate {tensors} train_input_fn max_steps eval_input_fn.
Arguments Evaluate {tensors} test_input_fn.

End MainPy.

(** ** Sample data *)

Module Sample.
Import InputDa MainPy.

(** A claim object as the data files hold it. *)
Definition claim_object (claim : string) (evidence : list string)
    (label : pyval) : pyval :=
  PDict [("claim", PStr claim);
         ("evidence", PList (map PStr evidence));
         ("label", label)].

(** A stand-in for scikit-learn: a row is the length of the document, the
    similarity of two rows their product. *)
Definition sklearn : Sklearn := {|
  tf_model := unit;
  tfidf_model := unit;
  row := nat;
  sim := nat;
  TFVec_fit := fun docs =>
    match docs with [] => Raise ValueError | _ => OK tt end;
  TFIDFVec_fit := fun docs =>
    match docs with [] => Raise ValueError | _ => OK tt end;
  tf_row := fun _ s => String.length s;
  tfidf_row := fun _ s => String.length s;
  cosine := fun a b => (a * b)%nat
|}.

Definition two_claims : list pyval :=
  [claim_object "a" ["b"; "cd"] (PInt 0);
   claim_object "e" ["f"] (PInt 1)].

Definition one_file (content : pyval) : world :=
  World (fun _ => Content (Some content)) [].

(** Unsigned decimal numerals, a part of what Python's [int] accepts. *)
Fixpoint decimal (s : string) (acc : Z) : option Z :=
  match s with
  | EmptyString => Some acc
  | String c s' =>
      if is_digit c
      then decimal s' (10 * acc + Z.of_nat (nat_of_ascii c) - 48)
      else None
  end.

Definition py_int (s : string) : option Z :=
  match s with
  | EmptyString => None
  | _ => decimal s 0
  end.

Definition py_float (s : string) : option float := None.

Definition tf_pipeline : ds_gen (SK := sklearn) -> io unit :=
  fun _ => ret tt.

Definition pd_read_csv : string -> pyval -> pyval -> io unit :=
  fun file skiprows skipfooter => emit (EvReadCsv file skiprows skipfooter).

(** [int(x / 500)] where it is exact. *)
Definition py_int_truediv_500 (v : pyval) : result Z :=
  match v with
  | PInt z => OK (Z.quot z 500)
  | _ => Raise TypeError
  end.

Definition argv : list string :=
  ["-m"; "2"; "-i"; "data"; "--output-dir"; "out"; "-j"; "7"].

Definition hparams : namespace :=
  [("model_type", PInt 2); ("data_dir", PStr "data");
   ("output_dir", PStr "out"); ("job_id", PInt 7); ("repeats", PInt 1);
   ("num_gpus", PInt 1); ("num_cores", PInt 4); ("train_steps", PInt 100);
   ("batch_size", PInt 128); ("eval_batch_size", PInt 128);
   ("learning_rate", PFloat learning_rate_default);
   ("cutoff_len", PInt 500)].

Definition empty_world : world := World (fun _ => Absent) [].

End Sample.


(** ** Vocabulary of the statements *)

Module Describe.
Import InputDa.

(** The three fields of a claim object the loader reads. *)
Record claim_fields : Type := ClaimFields {
  cf_claim : string;
  cf_evidence : list string;
  cf_label : pyval
}.

(** [o] is a claim object with these fields: a [dict] (other keys are
    allowed) whose ["evidence"] is a list of strings, whose ["claim"] is a
    string and that has a ["label"]. *)
Definition describes (o : pyval) (f : claim_fields) : Prop :=
  py_getitem o "evidence" = OK (PList (map PStr (cf_evidence f))) /\
  py_getitem o "claim" = OK (PStr (cf_claim f)) /\
  py_getitem o "label" = OK (cf_label f).

(** The evidence strings of a claim, joined from left to right. *)
Definition evidence_text (f : claim_fields) : string :=
  String.concat "" (cf_evidence f).

(** The document of a claim: its evidence text, then the claim. *)
Definition document_text (f : claim_fields) : string :=
  evidence_text f ++ cf_claim f.

(** ['train'], ['eval'] and ['predict']. *)
Definition recognized (mode : pyval) : bool :=
  py_eq_str mode "train" || py_eq_str mode "eval" || py_eq_str mode "predict".

(** The three factories [input_da.py] defines. *)
Definition input_da_factories (tensors : Type)
    {SK : Sklearn} (tf_pipeline : ds_gen -> io tensors)
    (pd_read_csv : string -> pyval -> pyval -> io unit)
    : list (pyval -> input_fn tensors) :=
  [get_input_fn tensors;
   get_input_fn_nli tf_pipeline;
   get_input_fn_fever tf_pipeline pd_read_csv].

(** What [main hparams] may hand to the framework: the hyperparameters
    as they are, and input functions made by one of the two imported
    factories for the modes of lines 101, 102 and 106. *)
Definition handed_over (tensors : Type)
    (get_input_fn_fnc get_input_fn_da : pyval -> input_fn tensors)
    (hparams : MainPy.namespace) (c : MainPy.tf_call tensors) : Prop :=
  match c with
  | MainPy.Estimator_ _ params => params = hparams
  | MainPy.TrainAndEvaluate f max_steps g =>
      exists factory,
        (factory = get_input_fn_fnc \/ factory = get_input_fn_da) /\
        f = factory MainPy.ModeKeys_TRAIN /\ g = factory MainPy.ModeKeys_EVAL
  | MainPy.Evaluate f =>
      exists factory,
        (factory = get_input_fn_fnc \/ factory = get_input_fn_da) /\
        f = factory (PStr "predict")
  end.

(** A computation only adds calls that satisfy [P] to the trace, and a
    value it returns satisfies [Q]. *)
Definition adds_only {C A : Type} (P : C -> Prop) (Q : A -> Prop)
    (c : st (list C) A) : Prop :=
  forall (s : list C) (r : result A) (s' : list C),
    c s = (r, s') ->
    (exists new : list C, s' = (s ++ new)%list /\ Forall P new) /\
    (forall a : A, r = OK a -> Q a).

(** A command line that [parse_tokens] accepts is a sequence of options,
    each followed by its value: [consumes toks ns seen ns' seen'] relates
    the namespace and the options met before and after [toks]. *)
Inductive consumes (py_int : string -> option Z)
    (py_float : string -> option float) (p : list MainPy.argument)
    : list string -> MainPy.namespace -> list string ->
      MainPy.namespace -> list string -> Prop :=
| consumes_nil (ns : MainPy.namespace) (seen : list string) :
    consumes py_int py_float p [] ns seen ns seen
| consumes_option (tok arg : string) (rest : list string)
    (a : MainPy.argument) (v : pyval)
    (ns ns' : MainPy.namespace) (seen seen' : list string) :
    MainPy.find_action p tok = Some a ->
    MainPy.convert py_int py_float (MainPy.type_ a) arg = Some v ->
    MainPy.in_choices a v = true ->
    consumes py_int py_float p rest
             (MainPy.set_attr ns (MainPy.dest a) v) (MainPy.dest a :: seen)
             ns' seen' ->
    consumes py_int py_float p (tok :: arg :: rest) ns seen ns' seen'.

(** The twelve attribute names, in the order of the [add_argument] calls. *)
Definition surface : list string :=
  ["model_type"; "data_dir"; "output_dir"; "job_id"; "repeats"; "num_gpus";
   "num_cores"; "train_steps"; "batch_size"; "eval_batch_size";
   "learning_rate"; "cutoff_len"].

(** The exception a run of [load_nli] ends with, by what the file holds:
    no file, no JSON, a [dict] without the keys of line 90, or anything
    else. *)
Definition load_nli_exception (c : file_outcome) : exn :=
  match c with
  | Absent => FileNotFoundError
  | Content None => JSONDecodeError
  | Content (Some (PDict kvs)) =>
      match lookup "claim" kvs, lookup "evidence" kvs with
      | Some _, Some _ => TypeError
      | _, _ => KeyError
      end
  | Content (Some _) => TypeError
  end.

(** What a run of [load_nli] prints: the line of line 90, for a [dict] that
    has both keys. *)
Definition load_nli_prints (c : file_outcome) : list event :=
  match c with
  | Content (Some (PDict kvs)) =>
      match lookup "claim" kvs, lookup "evidence" kvs with
      | Some c, Some e =>
          [EvPrint [PStr (nl ++ "claim" ++ nl); c;
                    PStr (nl ++ nl ++ "evidence" ++ nl); e]]
      | _, _ => []
      end
  | _ => []
  end.

Definition is_str (v : pyval) : bool :=
  match v with
  | PStr _ => true
  | _ => false
  end.

(** A value of the type an option declares. *)
Definition has_type (t : MainPy.arg_type) (v : pyval) : bool :=
  match t, v with
  | MainPy.TInt, PInt _ => true
  | MainPy.TStr, PStr _ => true
  | MainPy.TFloat, PFloat _ => true
  | _, _ => false
  end.

(** The three calls of one turn of [main]'s loop, for the factory the
    model type selects and [k = int(train_steps / 500)]. *)
Definition iteration_calls (tensors : Type)
    (factory : pyval -> input_fn tensors) (hparams : MainPy.namespace)
    (num_cores num_gpus : pyval) (output_dir : string)
    (job_id train_steps : pyval) (k i : Z) : list (MainPy.tf_call tensors) :=
  [MainPy.Estimator_
     (MainPy.RunConfig (output_dir, job_id, i + 1) (num_cores, num_gpus)
                       (k + 1))
     hparams;
   MainPy.TrainAndEvaluate (factory MainPy.ModeKeys_TRAIN) train_steps
                           (factory MainPy.ModeKeys_EVAL);
   MainPy.Evaluate (factory (PStr "predict"))].

End Describe.

(** * Properties *)

Import InputDa MainPy Describe.

(** ** Strings and the monads *)

Lemma append_nil_r (s : string) : s ++ "" = s.
Proof. induction s as [|c s IH]; simpl; [reflexivity | now rewrite IH]. Qed.

Lemma append_assoc (s t u : string) : (s ++ t) ++ u = s ++ (t ++ u).
Proof. induction s as [|c s IH]; simpl; [reflexivity | now rewrite IH]. Qed.

Lemma concat_cons (s : string) (l : list string) :
  String.concat "" (s :: l) = s ++ String.concat "" l.
Proof.
  destruct l as [|t l]; simpl; [now rewrite append_nil_r | reflexivity].
Qed.

Lemma last_cons {A : Type} (l : list A) : forall x d : A,
  last (x :: l) d = last l x.
Proof.
  induction l as [|y l IH]; intros x d; [reflexivity|].
  change (last (x :: y :: l) d) with (last (y :: l) d).
  now rewrite (IH y d), (IH y x).
Qed.

(** [concat += evidence] over a list of strings appends their join. *)
Lemma iadd_strings (evs : list string) : forall acc : string,
  for_each py_iadd_str (map PStr evs) acc = OK (acc ++ String.concat "" evs).
Proof.
  induction evs as [|e evs IH]; intros acc.
  - simpl. now rewrite append_nil_r.
  - rewrite concat_cons. cbn [map for_each]. simpl.
    rewrite IH. now rewrite append_assoc.
Qed.

(** ** The loop of [get_claim_evidence_pairs] *)

Lemma concat_evidences_spec (o : pyval) (f : claim_fields) :
  describes o f -> concat_evidences o = OK (evidence_text f).
Proof.
  intros (Hev & _ & _). unfold concat_evidences. rewrite Hev. simpl.
  now rewrite iadd_strings.
Qed.

Lemma pairs_step_spec (o : pyval) (f : claim_fields) (st : pairs_state) :
  describes o f ->
  pairs_step true st o =
  OK (PairsState (claim_list st ++ [PStr (cf_claim f)])
                 (evidence_list st ++ [PStr (evidence_text f)])
                 (cf_label f)
                 (document_list st ++ [document_text f])).
Proof.
  intros H. unfold pairs_step. rewrite (concat_evidences_spec H).
  destruct H as (_ & Hc & Hl). simpl. rewrite Hc. simpl. rewrite Hl.
  reflexivity.
Qed.

(** The accumulators after the loop, from any starting point: one entry
    per claim in the three lists, and in [label_list] the label of the last
    claim only. *)
Lemma pairs_loop_from (items : list pyval) (fields : list claim_fields) :
  Forall2 describes items fields ->
  forall st : pairs_state,
  for_each (pairs_step true) items st =
  OK (PairsState
        (claim_list st ++ map (fun f => PStr (cf_claim f)) fields)
        (evidence_list st ++ map (fun f => PStr (evidence_text f)) fields)
        (last (map cf_label fields) (label_list st))
        (document_list st ++ map document_text fields)).
Proof.
  induction 1 as [|o f items fields Hof _ IH]; intros st.
  - simpl. rewrite !app_nil_r. now destruct st.
  - cbn [for_each]. rewrite (pairs_step_spec st Hof).
    cbn [bind result_monad]. rewrite IH. cbn [claim_list evidence_list
      label_list document_list map]. rewrite <- !app_assoc. cbn [app].
    now rewrite last_cons.
Qed.

Lemma pairs_loop_spec (items : list pyval) (fields : list claim_fields) :
  Forall2 describes items fields ->
  pairs_loop true items =
  OK (PairsState (map (fun f => PStr (cf_claim f)) fields)
                 (map (fun f => PStr (evidence_text f)) fields)
                 (last (map cf_label fields) (PList []))
                 (map document_text fields)).
Proof.
  intros H. unfold pairs_loop. now rewrite (pairs_loop_from H).
Qed.

(** C5. In the loop of [get_claim_evidence_pairs] run with
    [concat_evidence] true over claim objects, the evidence entry appended
    for each claim is the left-to-right concatenation of the strings of its
    ["evidence"] list (the empty string for an empty list), and the
    document entry is that concatenation followed by the claim string;
    both lists have one entry per claim, in the order of the claims. *)
Theorem evidence_strings_are_concatenated
    (items : list pyval) (fields : list claim_fields) :
  Forall2 describes items fields ->
  exists st : pairs_state,
    pairs_loop true items = OK st /\
    evidence_list st =
      map (fun f => PStr (String.concat "" (cf_evidence f))) fields /\
    document_list st =
      map (fun f => String.concat "" (cf_evidence f) ++ cf_claim f) fields /\
    (forall f, cf_evidence f = [] -> String.concat "" (cf_evidence f) = "").
Proof.
  intros H. eexists. split; [exact (pairs_loop_spec H)|].
  cbn [evidence_list document_list]. repeat split.
  intros f Hf. now rewrite Hf.
Qed.

(** The statement above on two claims: the entries are ["bcd"] and ["f"],
    the documents ["bcda"] and ["fe"]. *)
Lemma evidence_strings_are_concatenated_witness :
  Forall2 describes Sample.two_claims
    [ClaimFields "a" ["b"; "cd"] (PInt 0); ClaimFields "e" ["f"] (PInt 1)] /\
  exists st : pairs_state,
    pairs_loop true Sample.two_claims = OK st /\
    evidence_list st = [PStr "bcd"; PStr "f"] /\
    document_list st = ["bcda"; "fe"].
Proof.
  assert (H : Forall2 describes Sample.two_claims
    [ClaimFields "a" ["b"; "cd"] (PInt 0); ClaimFields "e" ["f"] (PInt 1)])
    by (repeat constructor).
  split; [exact H|].
  destruct (evidence_strings_are_concatenated H) as (st & Hst & He & Hd & _).
  exists st. repeat split; assumption.
Defined.

(** C3. On the array of two claims labelled 0 and 1,
    [get_claim_evidence_pairs] raises [TypeError] at its first statement
    and returns no label collection; its loop alone, run over the two
    claims, leaves in [label_list] the label of the last claim, the integer
    1, and not a collection with one entry per claim. *)
Theorem labels_of_two_claims (mode : pyval) (ce : bool) (w : world) :
  get_claim_evidence_pairs (PList Sample.two_claims) mode ce w
    = (Raise TypeError, w) /\
  exists st : pairs_state,
    pairs_loop true Sample.two_claims = OK st /\
    label_list st = PInt 1 /\
    List.length (claim_list st) = 2%nat.
Proof.
  split; [reflexivity|]. eexists. split; [reflexivity|]. split; reflexivity.
Qed.

(** ** [get_claim_evidence_pairs] and [load_nli] on their input *)

(** No value that [json.load] can return gets through
    [get_claim_evidence_pairs]: a [dict] that has the keys of line 90 is
    iterated by its keys, which are strings and have no ["evidence"]. *)
Lemma get_claim_evidence_pairs_raises (d mode : pyval) (ce : bool) (w : world) :
  exists (e : exn) (w' : world),
    get_claim_evidence_pairs d mode ce w = (Raise e, w').
Proof.
  unfold get_claim_evidence_pairs.
  destruct d as [| b | z | f | s | l | kvs];
    try (exists TypeError, w; reflexivity).
  cbn [bind st_monad lift py_getitem].
  destruct (lookup "claim" kvs) as [c|] eqn:Hc;
    [|exists KeyError, w; reflexivity].
  destruct (lookup "evidence" kvs) as [e|];
    [|exists KeyError, w; reflexivity].
  destruct kvs as [|[k v] kvs]; [discriminate Hc|].
  eexists TypeError, _. reflexivity.
Qed.

Section LoaderFacts.
Context {SK : Sklearn}.

(** C10. For a file whose content parses to a JSON array, the first
    statement of [get_claim_evidence_pairs] subscripts the list with the
    string ["claim"] and raises [TypeError]: nothing is printed and no claim
    is processed, whatever the list holds; [load_nli] has then opened the
    file only, raises the same error and yields no tuple. *)
Theorem json_array_is_rejected
    (file : string) (l : list pyval) (mode : pyval) (ce : bool) (w : world) :
  fs w file = Content (Some (PList l)) ->
  py_getitem (PList l) "claim" = Raise TypeError /\
  get_claim_evidence_pairs (PList l) mode ce w = (Raise TypeError, w) /\
  load_nli file w
    = (Raise TypeError, World (fs w) (log w ++ [EvOpen file])) /\
  yielded (load_nli file w) = [].
Proof.
  intros Hf.
  assert (Hl : load_nli file w
            = (Raise TypeError, World (fs w) (log w ++ [EvOpen file]))).
  { unfold load_nli, open_json, emit. cbn [bind st_monad fs]. rewrite Hf.
    reflexivity. }
  repeat split; try assumption.
  unfold yielded. now rewrite Hl.
Qed.

Lemma transform_strings {A : Type} (to_row : string -> row)
    (text : A -> string) (xs : list A) :
  transform to_row (map (fun x => PStr (text x)) xs)
  = OK (map (fun x => to_row (text x)) xs).
Proof.
  induction xs as [|x xs IH]; [reflexivity|].
  cbn [map transform]. rewrite IH. reflexivity.
Qed.

Lemma zip_yield_nth (cs es : list row) (ss : list (list sim))
    (ls : list pyval) (i : nat) (t : nli_tuple) :
  nth_error (zip_yield cs es ss ls) i = Some t ->
  nth_error cs i = Some (t_claim t) /\
  nth_error ss i = Some (t_sim t) /\
  nth_error es i = Some (t_evidence t) /\
  nth_error ls i = Some (t_label t).
Proof.
  revert es ss ls i.
  induction cs as [|c cs IH]; intros [|e es] [|s ss] [|l ls] i H;
    try (destruct i; discriminate H).
  destruct i as [|i]; cbn in H.
  - injection H as <-. repeat split.
  - cbn. now apply IH.
Qed.

Lemma zip_yield_length (cs es : list row) (ss : list (list sim))
    (ls : list pyval) :
  List.length cs = List.length es -> List.length cs = List.length ss ->
  List.length (zip_yield cs es ss ls)
  = Nat.min (List.length cs) (List.length ls).
Proof.
  revert es ss ls.
  induction cs as [|c cs IH]; intros [|e es] [|s ss] [|l ls] He Hs;
    try discriminate; try reflexivity.
  cbn in *. f_equal. apply IH; congruence.
Qed.

End LoaderFacts.

Section SimilarityFacts.
Context {SK : Sklearn}.

Lemma cosine_similarity_rows (X Y : list row) :
  X <> [] -> Y <> [] ->
  cosine_similarity X Y = OK (map (fun x => map (cosine x) Y) X).
Proof.
  destruct X, Y; intros HX HY; try contradiction; reflexivity.
Qed.

Lemma all_pairs_map {A : Type} (claim_row evidence_row : A -> row)
    (xs ys : list A) :
  map (fun x => map (cosine x) (map evidence_row ys)) (map claim_row xs)
  = map (fun c => map (fun e => cosine (claim_row c) (evidence_row e)) ys) xs.
Proof.
  rewrite map_map. apply map_ext. intros c. now rewrite map_map.
Qed.

(** Lines 73-87 on what the loop returns for claim objects, when both
    vectorizers could be fitted and the labels can be iterated. *)
Lemma load_nli_vectorize_spec
    (fields : list claim_fields) (labels : pyval) (ls : list pyval)
    (tf_vec : tf_model) (tfidf_vec : tfidf_model) :
  fields <> [] ->
  TFVec_fit (map document_text fields) = OK tf_vec ->
  TFIDFVec_fit (map document_text fields) = OK tfidf_vec ->
  py_iter labels = OK ls ->
  load_nli_vectorize (map (fun f => PStr (cf_claim f)) fields)
                     (map (fun f => PStr (evidence_text f)) fields)
                     (map document_text fields) labels
  = OK (zip_yield
          (map (fun f => tf_row tf_vec (cf_claim f)) fields)
          (map (fun f => tf_row tf_vec (evidence_text f)) fields)
          (map (fun c =>
                  map (fun e => cosine (tfidf_row tfidf_vec (cf_claim c))
                                       (tfidf_row tfidf_vec (evidence_text e)))
                      fields)
               fields)
          ls).
Proof.
  intros Hne Htf Htfidf Hls. unfold load_nli_vectorize.
  rewrite Htf, Htfidf. cbn [bind result_monad].
  rewrite !(transform_strings _ cf_claim).
  rewrite !(transform_strings _ evidence_text).
  cbn [bind result_monad].
  rewrite cosine_similarity_rows
    by (destruct fields; [contradiction | discriminate]).
  cbn [bind result_monad]. rewrite Hls.
  now rewrite (all_pairs_map (fun f => tfidf_row tfidf_vec (cf_claim f))
                 (fun f => tfidf_row tfidf_vec (evidence_text f))).
Qed.

(** C1. Lines 73-87 of [load_nli], run on what the loop of
    [get_claim_evidence_pairs] returns for n claim objects: the similarity
    is computed between the TF-IDF row of every claim and the TF-IDF row of
    every evidence text, and the similarity component of the i-th tuple
    yielded is the whole i-th row of that n-by-n matrix, the list over all
    n evidence texts e of [cosine (claim i) e], not the single score of
    claim i with its own evidence. *)
Theorem similarity_is_all_pairs
    (items : list pyval) (fields : list claim_fields) (st : pairs_state)
    (tf_vec : tf_model) (tfidf_vec : tfidf_model) (ls : list pyval) :
  Forall2 describes items fields ->
  items <> [] ->
  pairs_loop true items = OK st ->
  TFVec_fit (document_list st) = OK tf_vec ->
  TFIDFVec_fit (document_list st) = OK tfidf_vec ->
  py_iter (label_list st) = OK ls ->
  exists out : list nli_tuple,
    load_nli_vectorize (claim_list st) (evidence_list st)
                       (document_list st) (label_list st) = OK out /\
    List.length out = Nat.min (List.length items) (List.length ls) /\
    forall (i : nat) (t : nli_tuple),
      nth_error out i = Some t ->
      exists c : claim_fields,
        nth_error fields i = Some c /\
        t_sim t =
          map (fun e => cosine (tfidf_row tfidf_vec (cf_claim c))
                               (tfidf_row tfidf_vec (evidence_text e)))
              fields /\
        List.length (t_sim t) = List.length items.
Proof.
  intros Hd Hne Hloop Htf Htfidf Hls.
  rewrite (pairs_loop_spec Hd) in Hloop. injection Hloop as <-.
  cbn [claim_list evidence_list document_list label_list] in *.
  assert (Hlen : List.length items = List.length fields)
    by (clear - Hd; induction Hd; cbn; congruence).
  assert (Hf : fields <> [])
    by (intros ->; destruct items; [now apply Hne | discriminate Hlen]).
  eexists. split; [exact (load_nli_vectorize_spec _ Hf Htf Htfidf Hls)|].
  split.
  - rewrite zip_yield_length; rewrite ?length_map; congruence.
  - intros i t Ht. apply zip_yield_nth in Ht. destruct Ht as (_ & Hs & _).
    rewrite nth_error_map in Hs.
    destruct (nth_error fields i) as [c|]; [|discriminate Hs].
    injection Hs as Hs. exists c. split; [reflexivity|]. split.
    + now rewrite <- Hs.
    + rewrite <- Hs, length_map. now rewrite Hlen.
Qed.

(** C2. A file whose content is the array of one claim object: [load_nli]
    raises [TypeError] at line 90 and yields no tuple, where one tuple is
    due.  The loop alone returns the integer label 0 for [labels], and
    lines 73-87 run on that raise as well, with every scikit-learn: [zip]
    cannot iterate an integer. *)
Theorem one_claim_yields_no_tuple (file : string) :
  let claim := Sample.claim_object "a" ["b"] (PInt 0) in
  let w := Sample.one_file (PList [claim]) in
  fst (load_nli file w) = Raise TypeError /\
  yielded (load_nli file w) = [] /\
  pairs_loop true [claim]
    = OK (PairsState [PStr "a"] [PStr "b"] (PInt 0) ["ba"]) /\
  exists e : exn,
    load_nli_vectorize [PStr "a"] [PStr "b"] ["ba"] (PInt 0) = Raise e.
Proof.
  cbv zeta. repeat split.
  unfold load_nli_vectorize.
  destruct (TFVec_fit ["ba"]) as [tf_vec|e]; [|exists e; reflexivity].
  destruct (TFIDFVec_fit ["ba"]) as [tfidf_vec|e]; [|exists e; reflexivity].
  exists TypeError. reflexivity.
Qed.

End SimilarityFacts.

(** The statement of C10 on a file that holds an array of two claims. *)
Lemma json_array_is_rejected_witness :
  let w := Sample.one_file (PList Sample.two_claims) in
  fs w "train.json" = Content (Some (PList Sample.two_claims)) /\
  load_nli (SK := Sample.sklearn) "train.json" w
    = (Raise TypeError, World (fs w) [EvOpen "train.json"]) /\
  yielded (load_nli (SK := Sample.sklearn) "train.json" w) = [].
Proof.
  cbv zeta. split; [reflexivity|].
  destruct (@json_array_is_rejected Sample.sklearn "train.json"
              Sample.two_claims PNone true
              (Sample.one_file (PList Sample.two_claims)) eq_refl)
    as (_ & _ & Hl & Hy).
  split; [exact Hl | exact Hy].
Defined.

(** The statement of C1 on two claims whose labels are strings: two tuples
    are yielded, each with a similarity row of length two. *)
Lemma similarity_is_all_pairs_witness :
  let items := [Sample.claim_object "a" ["b"; "cd"] (PStr "NO");
                Sample.claim_object "e" ["f"] (PStr "YES")] in
  Forall2 describes items
    [ClaimFields "a" ["b"; "cd"] (PStr "NO");
     ClaimFields "e" ["f"] (PStr "YES")] /\
  exists out : list nli_tuple,
    load_nli_vectorize (SK := Sample.sklearn)
      [PStr "a"; PStr "e"] [PStr "bcd"; PStr "f"] ["bcda"; "fe"] (PStr "YES")
      = OK out /\
    List.length out = 2%nat /\
    forall (i : nat) (t : nli_tuple),
      nth_error out i = Some t -> List.length (t_sim t) = 2%nat.
Proof.
  cbv zeta.
  assert (H : Forall2 describes
    [Sample.claim_object "a" ["b"; "cd"] (PStr "NO");
     Sample.claim_object "e" ["f"] (PStr "YES")]
    [ClaimFields "a" ["b"; "cd"] (PStr "NO");
     ClaimFields "e" ["f"] (PStr "YES")]) by (repeat constructor).
  split; [exact H|].
  destruct (@similarity_is_all_pairs Sample.sklearn _ _
              (PairsState [PStr "a"; PStr "e"] [PStr "bcd"; PStr "f"]
                          (PStr "YES") ["bcda"; "fe"])
              tt tt [PStr "Y"; PStr "E"; PStr "S"] H
              ltac:(discriminate) eq_refl eq_refl eq_refl eq_refl)
    as (out & Hout & Hlen & Hrows).
  exists out. split; [exact Hout|]. split; [exact Hlen|].
  intros i t Ht. destruct (Hrows i t Ht) as (c & _ & _ & Hl). exact Hl.
Defined.

(** ** The input-function factories *)

Section FactoryFacts.
Context {SK : Sklearn}.
Variable tensors : Type.
Variable tf_pipeline : ds_gen -> io tensors.
Variable pd_read_csv : string -> pyval -> pyval -> io unit.

(** C7. Whatever the file, the chunk size and the behaviour of
    [pd.read_csv], [load_fever_chunk] returns [None] and leaves the world
    as it was: the loop ranges over the empty list, its body is never run,
    and no event (no read of the CSV file in particular) is added to the
    log. *)
Theorem load_fever_chunk_reads_nothing
    (file : string) (chunk_size : pyval) (w : world) :
  load_fever_chunk pd_read_csv file chunk_size w = (OK PNone, w) /\
  forall e : event,
    In e (log (snd (load_fever_chunk pd_read_csv file chunk_size w))) ->
    In e (log w).
Proof.
  assert (H : load_fever_chunk pd_read_csv file chunk_size w = (OK PNone, w)).
  { unfold load_fever_chunk. cbn [for_each]. reflexivity. }
  split; [exact H|]. intros e He. now rewrite H in He.
Qed.

(** C6. Whatever mode the factory was given and whatever [params] is, the
    function [get_input_fn] returns gives [None] for each of the modes
    ['train'], ['eval'] and ['predict'], and does nothing else. *)
Theorem get_input_fn_is_stubbed (factory_mode params : pyval) (w : world) :
  get_input_fn tensors factory_mode (PStr "train") params w
    = (OK FnNone, w) /\
  get_input_fn tensors factory_mode (PStr "eval") params w
    = (OK FnNone, w) /\
  get_input_fn tensors factory_mode (PStr "predict") params w
    = (OK FnNone, w).
Proof. repeat split. Qed.

Lemma recognized_cases (mode : pyval) :
  recognized mode = true ->
  mode = PStr "train" \/ mode = PStr "eval" \/ mode = PStr "predict".
Proof.
  unfold recognized. destruct mode as [| | | | s | |]; try discriminate.
  cbn [py_eq_str]. intros H.
  apply orb_true_iff in H. destruct H as [H|H];
    [apply orb_true_iff in H; destruct H as [H|H]|];
    apply String.eqb_eq in H; subst; auto.
Qed.

Lemma unrecognized_cases (mode : pyval) :
  recognized mode = false ->
  py_eq_str mode "train" = false /\ py_eq_str mode "eval" = false /\
  py_eq_str mode "predict" = false.
Proof.
  unfold recognized. intros H.
  apply orb_false_iff in H. destruct H as [H H3].
  apply orb_false_iff in H. destruct H as [H1 H2]. auto.
Qed.

(** C4, as the code has it. The mode that is tested is the one the
    returned [_input_fn] is invoked with, whatever mode the factory was
    given: invoked with ['train'], ['eval'] or ['predict'] the mode
    dispatch raises nothing ([get_input_fn] returns [None], the other two
    have chosen their generator); invoked with any other value, [None]
    included, each of the three functions raises [ValueError] and does
    nothing else. *)
Theorem invalid_mode_raises_in_input_fn
    (factory_mode mode params : pyval) (w : world) :
  if recognized mode
  then get_input_fn tensors factory_mode mode params w
         = (OK FnNone, w) /\
       (exists g, dispatch_nli mode w = (OK g, w)) /\
       (exists g, dispatch_fever pd_read_csv mode w = (OK g, w))
  else get_input_fn tensors factory_mode mode params w
         = (Raise ValueError, w) /\
       get_input_fn_nli tf_pipeline factory_mode mode params w
         = (Raise ValueError, w) /\
       get_input_fn_fever tf_pipeline pd_read_csv factory_mode mode params w
         = (Raise ValueError, w).
Proof.
  destruct (recognized mode) eqn:Hm.
  - apply recognized_cases in Hm.
    destruct Hm as [-> | [-> | ->]]; repeat split; eexists; reflexivity.
  - apply unrecognized_cases in Hm. destruct Hm as (H1 & H2 & H3).
    unfold get_input_fn, get_input_fn_nli, get_input_fn_fever,
      dispatch_nli, dispatch_fever.
    rewrite H1, H2, H3. repeat split.
Qed.

Lemma default_call_raises (factory : pyval -> input_fn tensors) :
  In factory (input_da_factories tf_pipeline pd_read_csv) ->
  forall (m : pyval) (w : world),
    call_without_arguments (factory m) w = (Raise ValueError, w).
Proof.
  intros [<- | [<- | [<- | []]]] m w; reflexivity.
Qed.

End FactoryFacts.

(** C4, as the claim has it, fails: there is no way of invoking the
    function returned by [get_input_fn] for which a [ValueError] is raised
    exactly when the mode given to the factory is unrecognized. *)
Lemma factory_mode_does_not_decide :
  ~ (exists mode params : pyval,
       forall (m : pyval) (w : world),
         fst (get_input_fn unit m mode params w)
           = Raise ValueError
         <-> recognized m = false).
Proof.
  intros (mode & params & H).
  pose proof (H (PStr "train") (World (fun _ => Absent) [])) as [_ Ht].
  pose proof (H (PStr "test") (World (fun _ => Absent) [])) as [_ Hb].
  specialize (Hb eq_refl).
  change (get_input_fn unit (PStr "test"))
    with (get_input_fn unit (PStr "train")) in Hb.
  pose proof (H (PStr "train") (World (fun _ => Absent) [])) as [Hc _].
  specialize (Hc Hb). discriminate Hc.
Qed.

(** ** The driver *)

Section TraceFacts.
Variables (C : Type) (P : C -> Prop).

Lemma adds_only_ret {A : Type} (Q : A -> Prop) (a : A) :
  Q a -> adds_only P Q (ret a).
Proof.
  intros Ha s r s' H. injection H as <- <-. split.
  - exists []. now rewrite app_nil_r.
  - now intros a' [= <-].
Qed.

Lemma adds_only_lift {A : Type} (r0 : result A) :
  adds_only P (fun a => r0 = OK a) (lift r0).
Proof.
  intros s r s' H. injection H as <- <-. split.
  - exists []. now rewrite app_nil_r.
  - now intros a ->.
Qed.

Lemma adds_only_weaken {A : Type} (Q Q' : A -> Prop) (c : st (list C) A) :
  adds_only P Q c -> (forall a, Q a -> Q' a) -> adds_only P Q' c.
Proof.
  intros Hc HQ s r s' H. destruct (Hc s r s' H) as [Hn Hq].
  split; [exact Hn | auto].
Qed.

Lemma adds_only_bind {A B : Type} (Q : A -> Prop) (R : B -> Prop)
    (c : st (list C) A) (k : A -> st (list C) B) :
  adds_only P Q c -> (forall a, Q a -> adds_only P R (k a)) ->
  adds_only P R (bind c k).
Proof.
  intros Hc Hk s r s' H. cbn [bind st_monad] in H.
  destruct (c s) as [[a|e] s1] eqn:Hcs.
  - destruct (Hc s _ _ Hcs) as [(n1 & -> & F1) Ha].
    destruct (Hk a (Ha a eq_refl) _ _ _ H) as [(n2 & -> & F2) Hr].
    split; [|exact Hr].
    exists (n1 ++ n2)%list. split; [now rewrite app_assoc|].
    apply Forall_app. now split.
  - injection H as <- <-. destruct (Hc s _ _ Hcs) as [Hn _].
    split; [exact Hn | discriminate].
Qed.

Lemma adds_only_for_each {A : Type} (body : unit -> A -> st (list C) unit)
    (l : list A) :
  (forall x, adds_only P (fun _ => True) (body tt x)) ->
  adds_only P (fun _ => True) (for_each body l tt).
Proof.
  intros Hb. induction l as [|x l IH]; cbn [for_each].
  - now apply adds_only_ret.
  - eapply adds_only_bind; [apply Hb|]. intros [] _. exact IH.
Qed.

End TraceFacts.

Section DriverFacts.
Variable tensors : Type.
Variables get_input_fn_fnc get_input_fn_da : pyval -> input_fn tensors.
Variable py_int_truediv_500 : pyval -> result Z.
Variable hparams : namespace.

Local Abbreviation P :=
  (handed_over get_input_fn_fnc get_input_fn_da hparams).

Lemma item_adds (key : string) :
  adds_only P (fun _ => True) (item (tensors := tensors) hparams key).
Proof.
  eapply adds_only_weaken; [apply adds_only_lift | auto].
Qed.

Lemma call_adds (c : tf_call tensors) :
  P c -> adds_only P (fun _ => True) (call c).
Proof.
  intros Hc s r s' H. injection H as <- <-. split; [|auto].
  exists [c]. split; [reflexivity | now constructor].
Qed.

Lemma select_input_fn_adds :
  adds_only P
    (fun o => match o with
              | Some factory =>
                  factory = get_input_fn_fnc \/ factory = get_input_fn_da
              | None => True
              end)
    (select_input_fn get_input_fn_fnc get_input_fn_da hparams).
Proof.
  unfold select_input_fn.
  eapply adds_only_bind; [apply item_adds|]. intros v _.
  destruct (py_eq_int v 1); [apply adds_only_ret; auto|].
  eapply adds_only_bind; [apply item_adds|]. intros v' _.
  destruct (py_eq_int v' 2); apply adds_only_ret; auto.
Qed.

Lemma use_adds (o : option (pyval -> input_fn tensors)) (mode : pyval) :
  adds_only P (fun f => exists factory, o = Some factory /\ f = factory mode)
            (use o mode).
Proof.
  destruct o as [factory|]; cbn [use].
  - apply adds_only_ret. now exists factory.
  - eapply adds_only_weaken; [apply adds_only_lift | discriminate].
Qed.

Lemma iteration_adds (num_cores num_gpus : pyval) (i : Z) :
  adds_only P (fun _ => True)
    (iteration get_input_fn_fnc get_input_fn_da py_int_truediv_500
               hparams num_cores num_gpus i).
Proof.
  unfold iteration.
  eapply adds_only_bind; [apply item_adds|]. intros output_dir _.
  eapply adds_only_bind; [apply item_adds|]. intros job_id _.
  eapply adds_only_bind; [apply adds_only_lift|]. intros dir _.
  eapply adds_only_bind; [apply item_adds|]. intros train_steps _.
  eapply adds_only_bind; [apply adds_only_lift|]. intros k _.
  eapply adds_only_bind; [apply call_adds; reflexivity|]. intros _ _.
  eapply adds_only_bind; [apply select_input_fn_adds|]. intros o Ho.
  eapply adds_only_bind; [apply use_adds|]. intros f (F & -> & ->).
  eapply adds_only_bind; [apply item_adds|]. intros max_steps _.
  eapply adds_only_bind; [apply use_adds|]. intros g (F' & [= <-] & ->).
  eapply adds_only_bind;
    [apply call_adds; exists F; repeat split; exact Ho|]. intros _ _.
  eapply adds_only_bind; [apply use_adds|]. intros t (F' & [= <-] & ->).
  apply call_adds. exists F. split; [exact Ho | reflexivity].
Qed.

(** Every call [main] makes hands over the hyperparameters unchanged and
    input functions made by the imported factories. *)
Lemma main_adds :
  adds_only P (fun _ => True)
    (main get_input_fn_fnc get_input_fn_da py_int_truediv_500 hparams).
Proof.
  unfold main.
  eapply adds_only_bind; [apply item_adds|]. intros num_cores _.
  eapply adds_only_bind; [apply item_adds|]. intros num_gpus _.
  eapply adds_only_bind; [apply item_adds|]. intros repeats _.
  eapply adds_only_bind; [apply adds_only_lift|]. intros turns _.
  apply adds_only_for_each. intros i. apply iteration_adds.
Qed.

Lemma main_calls (r : result unit) (trace : list (tf_call tensors))
    (c : tf_call tensors) :
  main get_input_fn_fnc get_input_fn_da py_int_truediv_500 hparams []
    = (r, trace) ->
  In c trace -> P c.
Proof.
  intros H Hc. destruct (main_adds [] H) as [(new & -> & Hall) _].
  cbn [app] in Hc. rewrite Forall_forall in Hall. auto.
Qed.

End DriverFacts.

(** C9. Each factory of [input_da.py] returns the same function whatever
    mode it is given; that function, invoked without arguments, raises
    [ValueError] and does nothing else; and so do the functions [main]
    passes to [TrainSpec] and [EvalSpec] when the factories it imports are
    factories of [input_da.py]. *)
Theorem factories_ignore_their_mode {SK : Sklearn} (tensors : Type)
    (tf_pipeline : ds_gen -> io tensors)
    (pd_read_csv : string -> pyval -> pyval -> io unit)
    (m m' : pyval) (w : world) :
  (get_input_fn tensors m = get_input_fn tensors m' /\
   get_input_fn_nli tf_pipeline m = get_input_fn_nli tf_pipeline m' /\
   get_input_fn_fever tf_pipeline pd_read_csv m
     = get_input_fn_fever tf_pipeline pd_read_csv m') /\
  (call_without_arguments (get_input_fn tensors m) w
     = (Raise ValueError, w) /\
   call_without_arguments (get_input_fn_nli tf_pipeline m) w
     = (Raise ValueError, w) /\
   call_without_arguments (get_input_fn_fever tf_pipeline pd_read_csv m) w
     = (Raise ValueError, w)) /\
  (forall (get_input_fn_fnc get_input_fn_da : pyval -> input_fn tensors)
          (py_int_truediv_500 : pyval -> result Z) (hparams : namespace)
          (r : result unit) (trace : list (tf_call tensors))
          (train_fn eval_fn : input_fn tensors) (max_steps : pyval),
     In get_input_fn_fnc (input_da_factories tf_pipeline pd_read_csv) ->
     In get_input_fn_da (input_da_factories tf_pipeline pd_read_csv) ->
     main get_input_fn_fnc get_input_fn_da py_int_truediv_500 hparams []
       = (r, trace) ->
     In (TrainAndEvaluate train_fn max_steps eval_fn) trace ->
     call_without_arguments train_fn w = (Raise ValueError, w) /\
     call_without_arguments eval_fn w = (Raise ValueError, w)).
Proof.
  split; [repeat split|]. split; [repeat split|].
  intros fnc da div hparams r trace train_fn eval_fn max_steps
         Hfnc Hda Hmain Hin.
  pose proof (main_calls _ _ _ _ _ Hmain Hin) as (F & HF & -> & ->).
  assert (HFin : In F (input_da_factories tf_pipeline pd_read_csv))
    by (destruct HF as [-> | ->]; assumption).
  split; apply (default_call_raises HFin).
Qed.

(** The statement of C9 on a run of [main] with the factories of
    [input_da.py] in the place of the imported ones. *)
Lemma factories_ignore_their_mode_witness :
  let nli := get_input_fn_nli Sample.tf_pipeline in
  let run := main (get_input_fn unit) nli Sample.py_int_truediv_500
                  Sample.hparams [] in
  In (TrainAndEvaluate (nli (PStr "train")) (PInt 100) (nli (PStr "eval")))
     (snd run) /\
  call_without_arguments (nli (PStr "train")) Sample.empty_world
    = (Raise ValueError, Sample.empty_world) /\
  call_without_arguments (nli (PStr "eval")) Sample.empty_world
    = (Raise ValueError, Sample.empty_world).
Proof.
  cbv zeta.
  assert (Hin : In (TrainAndEvaluate
                      (get_input_fn_nli Sample.tf_pipeline (PStr "train"))
                      (PInt 100)
                      (get_input_fn_nli Sample.tf_pipeline (PStr "eval")))
                   (snd (main (get_input_fn unit)
                              (get_input_fn_nli Sample.tf_pipeline)
                              Sample.py_int_truediv_500 Sample.hparams [])))
    by (right; left; reflexivity).
  split; [exact Hin|].
  destruct (@factories_ignore_their_mode Sample.sklearn unit
              Sample.tf_pipeline Sample.pd_read_csv PNone PNone
              Sample.empty_world) as (_ & _ & Hmain).
  apply (Hmain (get_input_fn unit) (get_input_fn_nli Sample.tf_pipeline)
               Sample.py_int_truediv_500 Sample.hparams
               (fst (main (get_input_fn unit)
                          (get_input_fn_nli Sample.tf_pipeline)
                          Sample.py_int_truediv_500 Sample.hparams []))
               (snd (main (get_input_fn unit)
                          (get_input_fn_nli Sample.tf_pipeline)
                          Sample.py_int_truediv_500 Sample.hparams []))
               _ _ (PInt 100)).
  - left. reflexivity.
  - right. left. reflexivity.
  - apply surjective_pairing.
  - exact Hin.
Defined.

(** ** The command line *)

Lemma set_attr_keys (ns : namespace) (name : string) (v : pyval) :
  In name (map fst ns) -> map fst (set_attr ns name v) = map fst ns.
Proof.
  induction ns as [|[k x] ns IH]; intros Hin; [destruct Hin|].
  cbn [set_attr]. destruct (String.eqb k name) eqn:Hk; [reflexivity|].
  cbn [map fst]. f_equal. apply IH. destruct Hin as [Hin|Hin]; [|exact Hin].
  cbn in Hin. subst. now rewrite String.eqb_refl in Hk.
Qed.

Lemma lookup_set_attr_same (ns : namespace) (name : string) (v : pyval) :
  lookup name (set_attr ns name v) = Some v.
Proof.
  induction ns as [|[k x] ns IH]; cbn [set_attr lookup].
  - now rewrite String.eqb_refl.
  - destruct (String.eqb k name) eqn:Hk; cbn [lookup]; now rewrite Hk.
Qed.

Lemma lookup_set_attr_other (ns : namespace) (name key : string) (v : pyval) :
  name <> key -> lookup key (set_attr ns name v) = lookup key ns.
Proof.
  intros Hne. induction ns as [|[k x] ns IH]; cbn [set_attr lookup].
  - apply String.eqb_neq in Hne. now rewrite Hne.
  - destruct (String.eqb k name) eqn:Hk; cbn [lookup].
    + apply String.eqb_eq in Hk. subst k.
      apply String.eqb_neq in Hne. now rewrite Hne.
    + now rewrite IH.
Qed.

Lemma find_action_some (p : list argument) (tok : string) (a : argument) :
  find_action p tok = Some a -> In a p /\ In tok (option_strings a).
Proof.
  unfold find_action. intros H. apply find_some in H. destruct H as [Hin Hex].
  split; [exact Hin|]. apply existsb_exists in Hex.
  destruct Hex as (s & Hs & Heq). apply String.eqb_eq in Heq. now subst.
Qed.

Lemma classify_option (p : list argument) (tok : string) (a : argument) :
  classify p tok = Option_ a -> find_action p tok = Some a.
Proof.
  unfold classify. destruct (find_action p tok) as [a'|]; [now intros [= ->]|].
  destruct (String.eqb tok "-h" || String.eqb tok "--help"); [discriminate|].
  destruct tok as [|c [|c' s]]; try discriminate;
    destruct c as [[] [] [] [] [] [] [] []]; try discriminate;
    destruct (negative_number _); discriminate.
Qed.

Lemma injective_on_list {A B : Type} (f : A -> B) (l : list A) :
  NoDup (map f l) ->
  forall x y : A, In x l -> In y l -> f x = f y -> x = y.
Proof.
  induction l as [|z l IH]; intros Hnd x y Hx Hy Hxy; [destruct Hx|].
  cbn [map] in Hnd. inversion Hnd as [|? ? Hz Hnd']; subst.
  destruct Hx as [<- | Hx], Hy as [<- | Hy]; auto.
  - exfalso. apply Hz. rewrite Hxy. now apply in_map.
  - exfalso. apply Hz. rewrite <- Hxy. now apply in_map.
Qed.

Lemma parser_dest_nodup : NoDup (map dest parser).
Proof.
  cbn. repeat (constructor; [cbn; intuition discriminate|]). constructor.
Qed.

Section ParseFacts.
Variable py_int : string -> option Z.
Variable py_float : string -> option float.

Local Abbreviation parse_tokens := (MainPy.parse_tokens py_int py_float).
Local Abbreviation consumes := (Describe.consumes py_int py_float).

(** An accepted command line is consumed option by option, never meets a
    stray token, and ends with every required option met. *)
Lemma parse_tokens_consumes (p : list argument) (n : nat) :
  forall (toks : list string), (List.length toks <= n)%nat ->
  forall (ns : namespace) (seen : list string) (extras : bool)
         (ns' : namespace),
    parse_tokens p toks ns seen extras = Parsed ns' ->
    extras = false /\
    exists seen' : list string,
      consumes p toks ns seen ns' seen' /\
      forall a, In a p -> required a = true -> In (dest a) seen'.
Proof.
  induction n as [|n IH]; intros [|tok rest] Hlen ns seen extras ns' H;
    try (cbn in Hlen; lia).
  1, 2: cbn [MainPy.parse_tokens] in H;
    destruct (forallb _ p) eqn:Hreq; cbn [andb] in H; [|discriminate H];
    destruct extras; [discriminate H|]; injection H as <-;
    (split; [reflexivity|]); exists seen; (split; [constructor|]);
    intros a Ha Hr; rewrite forallb_forall in Hreq;
    specialize (Hreq a Ha); rewrite Hr in Hreq; cbn in Hreq;
    apply existsb_exists in Hreq; destruct Hreq as (d & Hd & Heq);
    apply String.eqb_eq in Heq; now subst.
  cbn [MainPy.parse_tokens] in H.
  destruct (classify p tok) as [a| | |] eqn:Hc; try discriminate H.
  - destruct rest as [|arg rest']; [discriminate H|].
    destruct (classify p arg); try discriminate H.
    destruct (convert py_int py_float (type_ a) arg) as [v|] eqn:Hv;
      [|discriminate H].
    destruct (in_choices a v) eqn:Hin; [|discriminate H].
    apply IH in H; [|cbn in Hlen |- *; lia].
    destruct H as (He & seen' & Hcons & Hreq). split; [exact He|].
    exists seen'. split; [|exact Hreq].
    econstructor; eauto using classify_option.
  - apply IH in H; [|cbn in Hlen |- *; lia]. destruct H as [H _].
    discriminate H.
Qed.

Lemma consumes_keys (p : list argument) (toks : list string)
    (ns ns' : namespace) (seen seen' : list string) :
  consumes p toks ns seen ns' seen' ->
  (forall a, In a p -> In (dest a) (map fst ns)) ->
  map fst ns' = map fst ns.
Proof.
  induction 1 as [|tok arg rest a v ns ns' seen seen' Hf Hv Hc _ IH];
    intros Hkeys; [reflexivity|].
  apply find_action_some in Hf. destruct Hf as [Ha _].
  rewrite IH; [now apply set_attr_keys, Hkeys|].
  intros a' Ha'. rewrite set_attr_keys by now apply Hkeys. now apply Hkeys.
Qed.

Lemma consumes_seen (p : list argument) (toks : list string)
    (ns ns' : namespace) (seen seen' : list string) :
  consumes p toks ns seen ns' seen' ->
  forall d, In d seen' ->
    In d seen \/
    exists tok a, In tok toks /\ find_action p tok = Some a /\ dest a = d.
Proof.
  induction 1 as [|tok arg rest a v ns ns' seen seen' Hf Hv Hc _ IH];
    intros d Hd; [now left|].
  destruct (IH d Hd) as [[<- | Hs] | (tok' & a' & Ht & Hf' & Hda)].
  - right. exists tok, a. repeat split; [now left | exact Hf].
  - now left.
  - right. exists tok', a'.
    repeat split; [now right; right | exact Hf' | exact Hda].
Qed.

(** Once [-m] has been met, [model_type] is 1 or 2. *)
Lemma consumes_model_type (toks : list string)
    (ns ns' : namespace) (seen seen' : list string) :
  consumes parser toks ns seen ns' seen' ->
  (In "model_type" seen ->
   lookup "model_type" ns = Some (PInt 1) \/
   lookup "model_type" ns = Some (PInt 2)) ->
  In "model_type" seen' ->
  lookup "model_type" ns' = Some (PInt 1) \/
  lookup "model_type" ns' = Some (PInt 2).
Proof.
  induction 1 as [|tok arg rest a v ns ns' seen seen' Hf Hv Hc _ IH];
    intros Hinv Hin; [auto|].
  apply IH; [|exact Hin]. clear IH Hin. intros Hin.
  apply find_action_some in Hf. destruct Hf as [Ha _].
  destruct (String.eqb (dest a) "model_type") eqn:Hd.
  - apply String.eqb_eq in Hd.
    assert (a = Argument ["-m"; "--model"] TInt (Some [1; 2]) true PNone
                         "model_type") as ->
      by (apply (injective_on_list dest parser parser_dest_nodup);
          [exact Ha | now left | exact Hd]).
    cbn [dest type_] in *. rewrite lookup_set_attr_same.
    unfold in_choices in Hc. cbn [choices] in Hc.
    destruct v as [| | z | | | |]; try discriminate Hc.
    cbn [existsb] in Hc.
    destruct (Z.eqb_spec z 1) as [-> | _]; [now left|].
    destruct (Z.eqb_spec z 2) as [-> | _]; [now right | discriminate Hc].
  - apply String.eqb_neq in Hd. rewrite lookup_set_attr_other by exact Hd.
    apply Hinv. destruct Hin as [Hin | Hin]; [contradiction | exact Hin].
Qed.

End ParseFacts.

(** C8. The parser declares exactly twelve options, for the model type,
    the data directory, the output directory, the job id, the repeat
    count, the numbers of GPUs and of CPU cores, the training steps, the two
    batch sizes, the learning rate and the cutoff length; the first four,
    and only they, are required.  For every command line [parse_args]
    accepts, the namespace has exactly these twelve attributes, the model
    type is 1 or 2, each required option occurs on the command line, and
    every hyperparameter object [main] builds is the namespace itself. *)
Theorem command_line_surface
    (py_int : string -> option Z) (py_float : string -> option float)
    (tensors : Type)
    (get_input_fn_fnc get_input_fn_da : pyval -> input_fn tensors)
    (py_int_truediv_500 : pyval -> result Z)
    (argv : list string) (ns : namespace) :
  parse_args py_int py_float parser argv = Parsed ns ->
  map dest parser = surface /\
  map dest (filter required parser)
    = ["model_type"; "data_dir"; "output_dir"; "job_id"] /\
  map choices (filter (fun a => String.eqb (dest a) "model_type") parser)
    = [Some [1; 2]] /\
  map fst ns = surface /\
  (lookup "model_type" ns = Some (PInt 1) \/
   lookup "model_type" ns = Some (PInt 2)) /\
  (forall a, In a parser -> required a = true ->
     exists flag, In flag (option_strings a) /\ In flag argv) /\
  (forall (r : result unit) (trace : list (tf_call tensors))
          (config : run_config) (params : namespace),
     script get_input_fn_fnc get_input_fn_da py_int_truediv_500
            py_int py_float argv = Some (r, trace) ->
     In (Estimator_ config params) trace -> params = ns).
Proof.
  intros Hparse.
  pose proof Hparse as H. unfold parse_args in H.
  apply (@parse_tokens_consumes py_int py_float parser (List.length argv))
    in H; [|lia].
  destruct H as (_ & seen' & Hcons & Hreq).
  split; [reflexivity|]. split; [reflexivity|]. split; [reflexivity|].
  split; [|split; [|split]].
  - rewrite (consumes_keys Hcons); [reflexivity|].
    intros a Ha. rewrite map_map. cbn [fst].
    now apply (in_map dest).
  - apply (consumes_model_type Hcons); [intros []|].
    apply (Hreq (Argument ["-m"; "--model"] TInt (Some [1; 2]) true PNone
                          "model_type")); [now left | reflexivity].
  - intros a Ha Hr.
    destruct (consumes_seen Hcons (dest a) (Hreq a Ha Hr))
      as [[] | (tok & a' & Htok & Hf & Hd)].
    apply find_action_some in Hf. destruct Hf as [Ha' Hflag].
    assert (a' = a) as ->
      by (apply (injective_on_list dest parser parser_dest_nodup); assumption).
    now exists tok.
  - intros r trace config params Hs Hin. unfold script in Hs.
    rewrite Hparse in Hs. injection Hs as Hs.
    exact (main_calls _ _ _ _ _ Hs Hin).
Qed.

(** The statement of C8 on the command line
    [-m 2 -i data --output-dir out -j 7]. *)
Lemma command_line_surface_witness :
  parse_args Sample.py_int Sample.py_float parser Sample.argv
    = Parsed Sample.hparams /\
  exists config : run_config,
    snd (main (get_input_fn unit) (get_input_fn unit)
              Sample.py_int_truediv_500 Sample.hparams [])
      = [Estimator_ config Sample.hparams;
         TrainAndEvaluate (get_input_fn unit (PStr "train")) (PInt 100)
                          (get_input_fn unit (PStr "eval"));
         Evaluate (get_input_fn unit (PStr "predict"))] /\
    forall (r : result unit) (trace : list (tf_call unit))
           (config' : run_config) (params : namespace),
      script (get_input_fn unit) (get_input_fn unit)
             Sample.py_int_truediv_500 Sample.py_int Sample.py_float
             Sample.argv = Some (r, trace) ->
      In (Estimator_ config' params) trace -> params = Sample.hparams.
Proof.
  assert (H : parse_args Sample.py_int Sample.py_float parser Sample.argv
              = Parsed Sample.hparams) by reflexivity.
  split; [exact H|].
  exists (RunConfig ("out", PInt 7, 1) (PInt 4, PInt 1) 1).
  split; [reflexivity|].
  exact (proj2 (proj2 (proj2 (proj2 (proj2 (proj2
    (@command_line_surface Sample.py_int Sample.py_float unit
       (get_input_fn unit) (get_input_fn unit) Sample.py_int_truediv_500
       Sample.argv Sample.hparams H))))))).
Defined.

(** * Further properties of [input_da.py] *)

(** ** One turn of the loop, read backwards *)

(** A turn that succeeds has read a string claim, a label and evidence
    that concatenates, and has added one entry to each list. *)
Lemma pairs_step_inv (ce : bool) (st st' : pairs_state) (o : pyval) :
  pairs_step ce st o = OK st' ->
  exists (concat claim : string) (entry : pyval),
    concat_evidences o = OK concat /\
    py_getitem o "claim" = OK (PStr claim) /\
    py_getitem o "label" = OK (label_list st') /\
    (if ce then entry = PStr concat else py_getitem o "evidence" = OK entry) /\
    claim_list st' = (claim_list st ++ [PStr claim])%list /\
    evidence_list st' = (evidence_list st ++ [entry])%list /\
    document_list st' = (document_list st ++ [(concat ++ claim)%string])%list.
Proof.
  unfold pairs_step. intros H.
  destruct (concat_evidences o) as [concat|e]; [|discriminate H].
  cbn [bind result_monad] in H.
  assert (He : exists entry,
            (if ce then OK (PStr concat) else py_getitem o "evidence")
              = OK entry /\
            (if ce then entry = PStr concat
             else py_getitem o "evidence" = OK entry)).
  { destruct ce; [now eexists|].
    destruct (py_getitem o "evidence") as [ev|]; [now eexists|discriminate H]. }
  destruct He as (entry & He & Hentry). rewrite He in H.
  destruct (py_getitem o "claim") as [c|]; [|discriminate H].
  destruct c as [| | | | claim | |]; try discriminate H.
  cbn [py_iadd_str] in H.
  destruct (py_getitem o "label") as [l|]; [|discriminate H].
  injection H as <-. exists concat, claim, entry. now repeat split.
Qed.

Lemma pairs_loop_from_inv (ce : bool) (items : list pyval) :
  forall st st' : pairs_state,
  for_each (pairs_step ce) items st = OK st' ->
  List.length (claim_list st')
    = (List.length (claim_list st) + List.length items)%nat /\
  List.length (evidence_list st')
    = (List.length (evidence_list st) + List.length items)%nat /\
  List.length (document_list st')
    = (List.length (document_list st) + List.length items)%nat /\
  (forallb is_str (claim_list st) = true ->
   forallb is_str (claim_list st') = true) /\
  (ce = true -> forallb is_str (evidence_list st) = true ->
   forallb is_str (evidence_list st') = true) /\
  match items with
  | [] => label_list st' = label_list st
  | _ :: _ => py_getitem (last items PNone) "label" = OK (label_list st')
  end.
Proof.
  induction items as [|o items IH]; intros st st' H.
  - injection H as <-. cbn. rewrite !Nat.add_0_r. now repeat split.
  - cbn [for_each bind result_monad] in H.
    destruct (pairs_step ce st o) as [st1|e] eqn:Hstep; [|discriminate H].
    apply pairs_step_inv in Hstep.
    destruct Hstep as (concat & claim & entry & _ & _ & Hl & He & Hc & Hev & Hd).
    apply IH in H. destruct H as (H1 & H2 & H3 & H4 & H5 & H6).
    rewrite Hc, Hev, Hd in *. rewrite !length_app in *. cbn [List.length] in *.
    repeat split; try lia.
    + intros Hs. apply H4. rewrite forallb_app, Hs. reflexivity.
    + intros -> Hs. apply H5; [reflexivity|]. subst entry.
      rewrite forallb_app, Hs. reflexivity.
    + destruct items as [|o' items]; [now rewrite H6|exact H6].
Qed.

(** X2. Whatever the items are and whichever way [concat_evidence] is set,
    a loop that succeeds returns lists of claims, of evidence entries and
    of documents with exactly one entry per item; every claim is a string,
    and so is every evidence entry when [concat_evidence] is true. *)
Theorem loop_lists_stay_aligned
    (ce : bool) (items : list pyval) (st : pairs_state) :
  pairs_loop ce items = OK st ->
  List.length (claim_list st) = List.length items /\
  List.length (evidence_list st) = List.length items /\
  List.length (document_list st) = List.length items /\
  forallb is_str (claim_list st) = true /\
  (ce = true -> forallb is_str (evidence_list st) = true).
Proof.
  intros H. apply pairs_loop_from_inv in H.
  destruct H as (H1 & H2 & H3 & H4 & H5 & _). cbn in *.
  repeat split; auto.
Qed.

Lemma loop_lists_stay_aligned_witness :
  pairs_loop false Sample.two_claims
    = OK (PairsState [PStr "a"; PStr "e"]
                     [PList [PStr "b"; PStr "cd"]; PList [PStr "f"]]
                     (PInt 1) ["bcda"; "fe"]) /\
  List.length [PStr "a"; PStr "e"] = List.length Sample.two_claims.
Proof.
  assert (H : pairs_loop false Sample.two_claims
    = OK (PairsState [PStr "a"; PStr "e"]
                     [PList [PStr "b"; PStr "cd"]; PList [PStr "f"]]
                     (PInt 1) ["bcda"; "fe"])) by reflexivity.
  split; [exact H|]. exact (proj1 (loop_lists_stay_aligned _ _ H)).
Defined.

(** X3. Whatever the items are, the fourth value a successful loop returns
    is the ["label"] of the last item alone, and the empty list when there
    is no item: no label of an earlier item is kept. *)
Theorem loop_keeps_last_label_only
    (ce : bool) (items : list pyval) (st : pairs_state) :
  pairs_loop ce items = OK st ->
  match items with
  | [] => label_list st = PList []
  | _ :: _ => py_getitem (last items PNone) "label" = OK (label_list st)
  end.
Proof.
  intros H. apply pairs_loop_from_inv in H.
  destruct H as (_ & _ & _ & _ & _ & H). exact H.
Qed.

Lemma loop_keeps_last_label_only_witness :
  pairs_loop true Sample.two_claims
    = OK (PairsState [PStr "a"; PStr "e"] [PStr "bcd"; PStr "f"]
                     (PInt 1) ["bcda"; "fe"]) /\
  py_getitem (Sample.claim_object "e" ["f"] (PInt 1)) "label" = OK (PInt 1).
Proof.
  assert (H : pairs_loop true Sample.two_claims
    = OK (PairsState [PStr "a"; PStr "e"] [PStr "bcd"; PStr "f"]
                     (PInt 1) ["bcda"; "fe"])) by reflexivity.
  split; [exact H|]. exact (loop_keeps_last_label_only _ _ H).
Defined.


(** ** Rejected items *)

Lemma for_each_app {A S : Type} (body : S -> A -> result S)
    (pre l : list A) : forall st : S,
  for_each body (pre ++ l)%list st
  = match for_each body pre st with
    | OK st' => for_each body l st'
    | Raise e => Raise e
    end.
Proof.
  induction pre as [|x pre IH]; intros st; [reflexivity|].
  cbn [app for_each bind result_monad].
  destruct (body st x) as [st1|e]; [apply IH | reflexivity].
Qed.

(** The loop stops at the first item whose turn raises, whatever follows
    it. *)
Lemma loop_stops_at_failure (ce : bool) (pre rest : list pyval)
    (st : pairs_state) (bad : pyval) (e : exn) :
  pairs_loop ce pre = OK st ->
  pairs_step ce st bad = Raise e ->
  pairs_loop ce (pre ++ bad :: rest) = Raise e.
Proof.
  unfold pairs_loop. intros Hpre Hbad. rewrite for_each_app, Hpre.
  cbn [for_each bind result_monad]. now rewrite Hbad.
Qed.

Lemma iadd_non_string (evs : list pyval) :
  existsb (fun x => negb (is_str x)) evs = true ->
  forall acc : string, for_each py_iadd_str evs acc = Raise TypeError.
Proof.
  induction evs as [|x evs IH]; intros H acc; [discriminate H|].
  cbn [for_each bind result_monad].
  destruct x; try reflexivity. cbn in H |- *. now apply IH.
Qed.

Lemma iadd_chars (s : string) : forall acc : string,
  for_each py_iadd_str (chars s) acc = OK (acc ++ s).
Proof.
  induction s as [|c s IH]; intros acc.
  - cbn. now rewrite append_nil_r.
  - cbn [chars for_each bind result_monad py_iadd_str]. rewrite IH.
    rewrite append_assoc. reflexivity.
Qed.

(** X4. A [dict] that lacks a key the loop reads raises [KeyError] in its
    turn: at once when ["evidence"] is missing, after the evidence has
    been concatenated when ["claim"] is missing, and after the claim has
    been read when ["label"] is missing.  The items after it are not
    looked at. *)
Theorem missing_key_raises_KeyError
    (ce : bool) (pre rest : list pyval) (st : pairs_state)
    (kvs : list (string * pyval)) :
  pairs_loop ce pre = OK st ->
  lookup "evidence" kvs = None \/
  (exists c : string,
     concat_evidences (PDict kvs) = OK c /\
     (lookup "claim" kvs = None \/
      (exists s : string, lookup "claim" kvs = Some (PStr s)) /\
      lookup "label" kvs = None)) ->
  pairs_loop ce (pre ++ PDict kvs :: rest) = Raise KeyError.
Proof.
  intros Hpre Hbad. eapply loop_stops_at_failure; [exact Hpre|].
  unfold pairs_step.
  destruct Hbad as [He | (c & Hc & Hbad)].
  - unfold concat_evidences. cbn [py_getitem]. rewrite He. reflexivity.
  - rewrite Hc. cbn [bind result_monad].
    assert (Hentry : exists entry,
              (if ce then OK (PStr c) else py_getitem (PDict kvs) "evidence")
                = OK entry).
    { destruct ce; [now eexists|]. unfold concat_evidences in Hc.
      destruct (py_getitem (PDict kvs) "evidence"); [now eexists|discriminate]. }
    destruct Hentry as (entry & ->). cbn [py_getitem].
    destruct Hbad as [Hclaim | [(s & Hclaim) Hlabel]]; rewrite Hclaim.
    + reflexivity.
    + cbn [py_iadd_str]. rewrite Hlabel. reflexivity.
Qed.

Lemma missing_key_raises_KeyError_witness :
  pairs_loop true [Sample.claim_object "a" ["b"] (PInt 0)]
    = OK (PairsState [PStr "a"] [PStr "b"] (PInt 0) ["ba"]) /\
  pairs_loop true
    [Sample.claim_object "a" ["b"] (PInt 0);
     PDict [("claim", PStr "c"); ("evidence", PList [PStr "d"])];
     Sample.claim_object "e" ["f"] (PInt 1)]
    = Raise KeyError.
Proof.
  assert (H : pairs_loop true [Sample.claim_object "a" ["b"] (PInt 0)]
    = OK (PairsState [PStr "a"] [PStr "b"] (PInt 0) ["ba"])) by reflexivity.
  split; [exact H|].
  apply (@missing_key_raises_KeyError true
           [Sample.claim_object "a" ["b"] (PInt 0)]
           [Sample.claim_object "e" ["f"] (PInt 1)] _
           [("claim", PStr "c"); ("evidence", PList [PStr "d"])] H).
  right. exists "d". split; [reflexivity|]. right.
  split; [now exists "c" | reflexivity].
Defined.

(** X5. An item raises [TypeError] in its turn when it is not a [dict],
    when its ["evidence"] cannot be iterated, when its ["evidence"] is a
    list that holds a value that is not a string, or when its ["claim"] is
    not a string.  The items after it are not looked at. *)
Theorem wrong_type_raises_TypeError
    (ce : bool) (pre rest : list pyval) (st : pairs_state) (o : pyval) :
  pairs_loop ce pre = OK st ->
  (forall kvs, o <> PDict kvs) \/
  (exists ev : pyval,
     py_getitem o "evidence" = OK ev /\ py_iter ev = Raise TypeError) \/
  (exists evs : list pyval,
     py_getitem o "evidence" = OK (PList evs) /\
     existsb (fun x => negb (is_str x)) evs = true) \/
  (exists (c : string) (v : pyval),
     concat_evidences o = OK c /\
     py_getitem o "claim" = OK v /\ is_str v = false) ->
  pairs_loop ce (pre ++ o :: rest) = Raise TypeError.
Proof.
  intros Hpre Hbad. eapply loop_stops_at_failure; [exact Hpre|].
  unfold pairs_step.
  destruct Hbad as [Hd | [(ev & He & Hi) | [(evs & He & Hx) | (c & v & Hc & Hv & Hs)]]].
  - destruct o as [| | | | | |kvs]; try reflexivity. now destruct (Hd kvs).
  - unfold concat_evidences. rewrite He. cbn [bind result_monad].
    now rewrite Hi.
  - unfold concat_evidences. rewrite He. cbn [bind result_monad py_iter].
    now rewrite (iadd_non_string _ Hx).
  - rewrite Hc. cbn [bind result_monad].
    assert (Hentry : exists entry,
              (if ce then OK (PStr c) else py_getitem o "evidence")
                = OK entry).
    { destruct ce; [now eexists|]. unfold concat_evidences in Hc.
      destruct (py_getitem o "evidence"); [now eexists|discriminate]. }
    destruct Hentry as (entry & ->). rewrite Hv. cbn [bind result_monad].
    destruct v; try reflexivity. discriminate Hs.
Qed.

Lemma wrong_type_raises_TypeError_witness :
  pairs_loop true [] = OK pairs_init /\
  pairs_loop true
    [PDict [("claim", PStr "c"); ("evidence", PList [PStr "d"; PInt 3]);
            ("label", PInt 0)];
     Sample.claim_object "e" ["f"] (PInt 1)]
    = Raise TypeError.
Proof.
  split; [reflexivity|].
  apply (@wrong_type_raises_TypeError true []
           [Sample.claim_object "e" ["f"] (PInt 1)] pairs_init
           (PDict [("claim", PStr "c"); ("evidence", PList [PStr "d"; PInt 3]);
                   ("label", PInt 0)]) eq_refl).
  right. right. left. exists [PStr "d"; PInt 3]. split; reflexivity.
Defined.

Lemma getitem_error (v : pyval) (key : string) (e : exn) :
  py_getitem v key = Raise e -> e = KeyError \/ e = TypeError.
Proof.
  destruct v as [| | | | | |kvs]; cbn; try (intros [= <-]; now right).
  destruct (lookup key kvs); [discriminate | intros [= <-]; now left].
Qed.

Lemma iadd_error (evs : list pyval) : forall (acc : string) (e : exn),
  for_each py_iadd_str evs acc = Raise e -> e = TypeError.
Proof.
  induction evs as [|x evs IH]; intros acc e H; [discriminate H|].
  cbn [for_each bind result_monad] in H.
  destruct x; cbn in H; try (now injection H as <-). now apply IH in H.
Qed.

Lemma pairs_step_error (ce : bool) (st : pairs_state) (o : pyval) (e : exn) :
  pairs_step ce st o = Raise e -> e = KeyError \/ e = TypeError.
Proof.
  unfold pairs_step, concat_evidences. intros H.
  destruct (py_getitem o "evidence") as [ev|e1] eqn:Hev;
    [|injection H as <-; exact (getitem_error _ _ Hev)].
  cbn [bind result_monad] in H.
  destruct (py_iter ev) as [evs|e2] eqn:Hit;
    [|injection H as <-; right; destruct ev; cbn in Hit; congruence].
  cbn [bind result_monad] in H.
  destruct (for_each py_iadd_str evs "") as [c|e3] eqn:Hadd;
    [|injection H as <-; right; exact (iadd_error _ _ Hadd)].
  cbn [bind result_monad] in H.
  replace (if ce then OK (PStr c) else OK ev)
    with (OK (if ce then PStr c else ev) : result pyval) in H
    by now destruct ce.
  cbn [bind result_monad] in H.
  destruct (py_getitem o "claim") as [v|e4] eqn:Hcl;
    [|injection H as <-; exact (getitem_error _ _ Hcl)].
  cbn [bind result_monad] in H.
  destruct v; cbn [py_iadd_str bind result_monad] in H;
    try (injection H as <-; now right).
  destruct (py_getitem o "label") as [l|e5] eqn:Hl;
    [discriminate H | injection H as <-; exact (getitem_error _ _ Hl)].
Qed.

(** X6. The loop raises nothing but [KeyError] and [TypeError], whatever
    the items are. *)
Theorem loop_raises_KeyError_or_TypeError
    (ce : bool) (items : list pyval) (e : exn) :
  pairs_loop ce items = Raise e -> e = KeyError \/ e = TypeError.
Proof.
  unfold pairs_loop. generalize pairs_init.
  induction items as [|o items IH]; intros st H; [discriminate H|].
  cbn [for_each bind result_monad] in H.
  destruct (pairs_step ce st o) as [st'|e'] eqn:Hstep.
  - exact (IH _ H).
  - injection H as <-. exact (pairs_step_error _ _ _ Hstep).
Qed.

Lemma loop_raises_KeyError_or_TypeError_witness :
  pairs_loop false [PDict [("evidence", PList [])]] = Raise KeyError /\
  (KeyError = KeyError \/ KeyError = TypeError).
Proof.
  assert (H : pairs_loop false [PDict [("evidence", PList [])]]
              = Raise KeyError) by reflexivity.
  split; [exact H|]. exact (loop_raises_KeyError_or_TypeError _ _ H).
Defined.


(** ** The two ways of keeping the evidence *)

Lemma pairs_step_raw (o : pyval) (f : claim_fields) (st : pairs_state) :
  describes o f ->
  pairs_step false st o =
  OK (PairsState (claim_list st ++ [PStr (cf_claim f)])
                 (evidence_list st ++ [PList (map PStr (cf_evidence f))])
                 (cf_label f)
                 (document_list st ++ [document_text f])).
Proof.
  intros H. unfold pairs_step. rewrite (concat_evidences_spec H).
  destruct H as (He & Hc & Hl). cbn [bind result_monad].
  rewrite He, Hc. cbn [bind result_monad py_iadd_str]. now rewrite Hl.
Qed.

Lemma pairs_loop_raw_from (items : list pyval) (fields : list claim_fields) :
  Forall2 describes items fields ->
  forall st : pairs_state,
  for_each (pairs_step false) items st =
  OK (PairsState
        (claim_list st ++ map (fun f => PStr (cf_claim f)) fields)
        (evidence_list st
         ++ map (fun f => PList (map PStr (cf_evidence f))) fields)
        (last (map cf_label fields) (label_list st))
        (document_list st ++ map document_text fields)).
Proof.
  induction 1 as [|o f items fields Hof _ IH]; intros st.
  - cbn. rewrite !app_nil_r. now destruct st.
  - cbn [for_each]. rewrite (pairs_step_raw st Hof).
    cbn [bind result_monad]. rewrite IH. cbn [claim_list evidence_list
      label_list document_list map]. rewrite <- !app_assoc. cbn [app].
    now rewrite last_cons.
Qed.

(** X7. On claim objects, [concat_evidence] changes the evidence list
    only: set to false, each evidence entry is the claim's ["evidence"]
    list itself, while the claims, the documents (still the concatenated
    evidence followed by the claim) and the label are those of the run with
    [concat_evidence] true. *)
Theorem concat_evidence_changes_evidence_only
    (items : list pyval) (fields : list claim_fields) :
  Forall2 describes items fields ->
  exists st_concat st_raw : pairs_state,
    pairs_loop true items = OK st_concat /\
    pairs_loop false items = OK st_raw /\
    claim_list st_raw = claim_list st_concat /\
    document_list st_raw = document_list st_concat /\
    label_list st_raw = label_list st_concat /\
    evidence_list st_raw
      = map (fun f => PList (map PStr (cf_evidence f))) fields.
Proof.
  intros H. do 2 eexists.
  split; [exact (pairs_loop_spec H)|].
  split; [unfold pairs_loop; exact (pairs_loop_raw_from H pairs_init)|].
  repeat split.
Qed.

Lemma concat_evidence_changes_evidence_only_witness :
  Forall2 describes Sample.two_claims
    [ClaimFields "a" ["b"; "cd"] (PInt 0); ClaimFields "e" ["f"] (PInt 1)] /\
  exists st_raw : pairs_state,
    pairs_loop false Sample.two_claims = OK st_raw /\
    evidence_list st_raw = [PList [PStr "b"; PStr "cd"]; PList [PStr "f"]].
Proof.
  assert (H : Forall2 describes Sample.two_claims
    [ClaimFields "a" ["b"; "cd"] (PInt 0); ClaimFields "e" ["f"] (PInt 1)])
    by (repeat constructor).
  split; [exact H|].
  destruct (concat_evidence_changes_evidence_only H)
    as (st_concat & st_raw & _ & Hraw & _ & _ & _ & He).
  exists st_raw. split; [exact Hraw | exact He].
Defined.

(** X8. A claim whose ["evidence"] is one string instead of a list of
    strings is accepted: the string is iterated character by character
    and concatenated back, so the evidence entry is the string itself and
    the document is the string followed by the claim. *)
Theorem string_evidence_is_taken_whole
    (o : pyval) (st : pairs_state) (evidence claim : string) (label : pyval) :
  py_getitem o "evidence" = OK (PStr evidence) ->
  py_getitem o "claim" = OK (PStr claim) ->
  py_getitem o "label" = OK label ->
  pairs_step true st o =
  OK (PairsState (claim_list st ++ [PStr claim])
                 (evidence_list st ++ [PStr evidence])
                 label
                 (document_list st ++ [evidence ++ claim])).
Proof.
  intros He Hc Hl. unfold pairs_step, concat_evidences.
  rewrite He. cbn [bind result_monad py_iter]. rewrite iadd_chars.
  cbn [bind result_monad append]. rewrite Hc.
  cbn [bind result_monad py_iadd_str]. now rewrite Hl.
Qed.

Lemma string_evidence_is_taken_whole_witness :
  let o := PDict [("claim", PStr "c"); ("evidence", PStr "ab");
                  ("label", PStr "L")] in
  py_getitem o "evidence" = OK (PStr "ab") /\
  pairs_step true pairs_init o
    = OK (PairsState [PStr "c"] [PStr "ab"] (PStr "L") ["abc"]).
Proof.
  cbv zeta. split; [reflexivity|].
  exact (@string_evidence_is_taken_whole
           (PDict [("claim", PStr "c"); ("evidence", PStr "ab");
                   ("label", PStr "L")])
           pairs_init "ab" "c" (PStr "L") eq_refl eq_refl eq_refl).
Defined.

(** ** [load_nli] on every file *)

Section LoadNliFacts.
Context {SK : Sklearn}.

(** How a run of [load_nli] ends, for every file and every world. *)
Lemma load_nli_run (file : string) (w : world) :
  load_nli file w
  = (Raise (load_nli_exception (fs w file)),
     World (fs w)
           (log w ++ EvOpen file :: load_nli_prints (fs w file))).
Proof.
  unfold load_nli, open_json, emit. cbn [bind st_monad fs log].
  destruct (fs w file) as [|[v|]]; try reflexivity.
  destruct v as [| | | | | |kvs]; try reflexivity.
  unfold get_claim_evidence_pairs, lift.
  cbn [bind st_monad py_getitem load_nli_exception load_nli_prints].
  destruct (lookup "claim" kvs) as [c|] eqn:Hc; [|reflexivity].
  destruct (lookup "evidence" kvs) as [e|]; [|reflexivity].
  destruct kvs as [|[k v] kvs]; [discriminate Hc|].
  unfold emit. cbn [bind st_monad fs log py_iter map fst].
  unfold pairs_loop. cbn. now rewrite <- app_assoc.
Qed.

(** X1. Whatever the file holds, a run of [load_nli] opens the file, ends
    with an exception and yields no tuple: [FileNotFoundError] without a
    file, [JSONDecodeError] when the content is not JSON, [KeyError] for a
    JSON object that lacks ["claim"] or ["evidence"], and [TypeError] for
    every other JSON value; only a JSON object that has both keys gets as
    far as the [print] of line 90, and fails in the first turn of the
    loop. *)
Theorem load_nli_always_raises (file : string) (w : world) :
  load_nli file w
  = (Raise (load_nli_exception (fs w file)),
     World (fs w)
           (log w ++ EvOpen file :: load_nli_prints (fs w file))) /\
  yielded (load_nli file w) = [].
Proof.
  split; [apply load_nli_run|].
  unfold yielded. now rewrite load_nli_run.
Qed.

(** X11. Whatever mode [get_input_fn_nli]'s function is invoked with, the
    dispatch either raises [ValueError] (unrecognized mode) or binds
    [ds_gen] to a generator of [load_nli] that has not run; and that
    generator, run in any world, raises and yields no tuple. *)
Theorem nli_generator_never_yields (mode : pyval) (w : world) :
  match dispatch_nli mode w with
  | (OK (Generator body), w') =>
      recognized mode = true /\ w' = w /\
      forall w0 : world,
        yielded (body w0) = [] /\ exists e, fst (body w0) = Raise e
  | (OK (Plain _), _) => False
  | (Raise e, w') => recognized mode = false /\ e = ValueError /\ w' = w
  end.
Proof.
  unfold dispatch_nli, recognized.
  destruct (py_eq_str mode "train"); cbn [orb].
  - repeat split.
    + unfold yielded. now rewrite load_nli_run.
    + rewrite load_nli_run. now eexists.
  - destruct (py_eq_str mode "eval" || py_eq_str mode "predict").
    + repeat split.
      * unfold yielded. now rewrite load_nli_run.
      * rewrite load_nli_run. now eexists.
    + repeat split.
Qed.

(** ** Lines 73-87 on lists of strings *)

Lemma zip_yield_min (cs es : list row) (ss : list (list sim))
    (ls : list pyval) :
  List.length ss = List.length cs ->
  List.length (zip_yield cs es ss ls)
  = Nat.min (Nat.min (List.length cs) (List.length es)) (List.length ls).
Proof.
  revert es ss ls.
  induction cs as [|c cs IH]; intros [|e es] [|s ss] [|l ls] Hs;
    try discriminate; try reflexivity.
  cbn in *. f_equal. apply IH. congruence.
Qed.

(** X9. Lines 73-87 on claims and evidence texts that are strings, when
    both vectorizers could be fitted and [labels] can be iterated: the
    number of tuples yielded is the least of the numbers of claims, of
    evidence texts and of elements of [labels]; the i-th tuple holds the
    term-frequency rows of the i-th claim and of the i-th evidence text,
    the similarities of the i-th claim with every evidence text, and the
    i-th element of [labels]. *)
Theorem vectorize_yields_aligned_tuples
    (cs es documents : list string) (labels : pyval) (ls : list pyval)
    (tf_vec : tf_model) (tfidf_vec : tfidf_model) :
  cs <> [] -> es <> [] ->
  TFVec_fit documents = OK tf_vec ->
  TFIDFVec_fit documents = OK tfidf_vec ->
  py_iter labels = OK ls ->
  exists out : list nli_tuple,
    load_nli_vectorize (map PStr cs) (map PStr es) documents labels = OK out /\
    List.length out
      = Nat.min (Nat.min (List.length cs) (List.length es)) (List.length ls) /\
    forall (i : nat) (t : nli_tuple),
      nth_error out i = Some t ->
      exists c e : string,
        nth_error cs i = Some c /\ nth_error es i = Some e /\
        nth_error ls i = Some (t_label t) /\
        t_claim t = tf_row tf_vec c /\
        t_evidence t = tf_row tf_vec e /\
        t_sim t = map (fun e' => cosine (tfidf_row tfidf_vec c)
                                        (tfidf_row tfidf_vec e')) es.
Proof.
  intros Hcs Hes Htf Htfidf Hls. unfold load_nli_vectorize.
  rewrite Htf, Htfidf. cbn [bind result_monad].
  rewrite !(transform_strings _ (fun s : string => s)).
  cbn [bind result_monad].
  rewrite cosine_similarity_rows
    by (destruct cs, es; try contradiction; discriminate).
  cbn [bind result_monad]. rewrite Hls.
  rewrite (all_pairs_map (tfidf_row tfidf_vec) (tfidf_row tfidf_vec)).
  eexists. split; [reflexivity|]. split.
  - rewrite zip_yield_min; rewrite !length_map; reflexivity.
  - intros i t Ht. apply zip_yield_nth in Ht.
    destruct Ht as (Hc & Hs & He & Hl).
    rewrite nth_error_map in Hc, Hs, He.
    destruct (nth_error cs i) as [c|]; [|discriminate Hc].
    destruct (nth_error es i) as [e|]; [|discriminate He].
    injection Hc as Hc. injection Hs as Hs. injection He as He.
    exists c, e. repeat split; auto.
Qed.

(** X10. Lines 73-87 never yield when there is no claim, when there is no
    evidence text or when [labels] cannot be iterated (a number, a
    boolean, [None]): they raise, whatever scikit-learn does. *)
Theorem vectorize_rejects_empty_and_scalar_labels
    (claims evidences : list pyval) (documents : list string)
    (labels : pyval) :
  claims = [] \/ evidences = [] \/ py_iter labels = Raise TypeError ->
  exists e : exn,
    load_nli_vectorize claims evidences documents labels = Raise e.
Proof.
  intros H. unfold load_nli_vectorize.
  destruct (TFVec_fit documents) as [tf_vec|e]; [|now exists e].
  destruct (TFIDFVec_fit documents) as [tfidf_vec|e]; [|now exists e].
  cbn [bind result_monad].
  destruct (transform (tf_row tf_vec) claims) as [r1|e]; [|now exists e].
  destruct (transform (tf_row tf_vec) evidences) as [r2|e]; [|now exists e].
  cbn [bind result_monad].
  destruct (transform (tfidf_row tfidf_vec) claims) as [x|e] eqn:Hx;
    [|now exists e].
  destruct (transform (tfidf_row tfidf_vec) evidences) as [y|e] eqn:Hy;
    [|now exists e].
  cbn [bind result_monad].
  destruct H as [-> | [-> | Hl]].
  - cbn in Hx. injection Hx as <-. now exists ValueError.
  - cbn in Hy. injection Hy as <-. exists ValueError. now destruct x.
  - destruct (cosine_similarity x y) as [m|e]; [|now exists e].
    cbn [bind result_monad]. rewrite Hl. now exists TypeError.
Qed.

End LoadNliFacts.

Lemma vectorize_yields_aligned_tuples_witness :
  py_iter (PStr "NO") = OK [PStr "N"; PStr "O"] /\
  exists out : list nli_tuple,
    load_nli_vectorize (SK := Sample.sklearn)
      [PStr "a"; PStr "ee"; PStr "g"] [PStr "bcd"; PStr "f"; PStr "h"]
      ["bcda"; "fee"; "hg"] (PStr "NO") = OK out /\
    List.length out = 2%nat.
Proof.
  split; [reflexivity|].
  destruct (@vectorize_yields_aligned_tuples Sample.sklearn
              ["a"; "ee"; "g"] ["bcd"; "f"; "h"] ["bcda"; "fee"; "hg"]
              (PStr "NO") [PStr "N"; PStr "O"] tt tt
              ltac:(discriminate) ltac:(discriminate)
              eq_refl eq_refl eq_refl) as (out & Hout & Hlen & _).
  exists out. split; [exact Hout | exact Hlen].
Defined.

Lemma vectorize_rejects_empty_and_scalar_labels_witness :
  py_iter (PInt 1) = Raise TypeError /\
  exists e : exn,
    load_nli_vectorize (SK := Sample.sklearn)
      [PStr "a"] [PStr "b"] ["ba"] (PInt 1) = Raise e.
Proof.
  split; [reflexivity|].
  apply (@vectorize_rejects_empty_and_scalar_labels Sample.sklearn).
  right. right. reflexivity.
Defined.

(** ** The FEVER input function *)

(** X12. Invoked with ['train'], ['eval'] or ['predict'], the function of
    [get_input_fn_fever] binds [ds_gen] to [None], the value
    [load_fever_chunk] returns, without any effect of its own, and what it
    returns or raises is what the TensorFlow pipeline makes of [None]. *)
Theorem fever_pipeline_is_fed_none {SK : Sklearn} (tensors : Type)
    (tf_pipeline : ds_gen -> io tensors)
    (pd_read_csv : string -> pyval -> pyval -> io unit)
    (factory_mode mode params : pyval) (w : world) :
  recognized mode = true ->
  dispatch_fever pd_read_csv mode w = (OK (Plain PNone), w) /\
  get_input_fn_fever tf_pipeline pd_read_csv factory_mode mode params w
  = match tf_pipeline (Plain PNone) w with
    | (OK t, w') => (OK (FnTensors t), w')
    | (Raise e, w') => (Raise e, w')
    end.
Proof.
  intros Hm. apply recognized_cases in Hm.
  destruct Hm as [-> | [-> | ->]]; split; reflexivity.
Qed.

Lemma fever_pipeline_is_fed_none_witness :
  recognized (PStr "eval") = true /\
  dispatch_fever (SK := Sample.sklearn) Sample.pd_read_csv (PStr "eval")
                 Sample.empty_world
    = (OK (Plain PNone), Sample.empty_world).
Proof.
  split; [reflexivity|].
  exact (proj1 (@fever_pipeline_is_fed_none Sample.sklearn unit
                  Sample.tf_pipeline Sample.pd_read_csv PNone (PStr "eval")
                  PNone Sample.empty_world eq_refl)).
Defined.


(** * Further properties of [main.py] *)

(** ** Tokens *)

Lemma negative_number_not_option (tok : string) :
  negative_number tok = true ->
  find_action parser tok = None /\
  String.eqb tok "-h" || String.eqb tok "--help" = false.
Proof.
  destruct tok as [|c0 tok]; [discriminate|].
  destruct tok as [|c1 rest];
    [destruct c0 as [[] [] [] [] [] [] [] []]; discriminate|].
  intros H.
  destruct c0 as [[] [] [] [] [] [] [] []]; try discriminate H.
  destruct c1 as [[] [] [] [] [] [] [] []];
    try discriminate H; split; reflexivity.
Qed.

Lemma find_action_classify (tok : string) (a : argument) :
  find_action parser tok = Some a -> classify parser tok = Option_ a.
Proof. intros H. unfold classify. now rewrite H. Qed.

(** X13. No option string of the parser looks like a negative number, so
    a token such as [-5] or [-.5] is read as a value: placed after an
    option, it is converted and stored like any other value, and the rest
    of the command line is read on. *)
Theorem negative_number_is_a_value
    (py_int : string -> option Z) (py_float : string -> option float)
    (flag tok : string) (rest : list string) (a : argument) (v : pyval)
    (ns : namespace) (seen : list string) (extras : bool) :
  negative_number tok = true ->
  find_action parser flag = Some a ->
  convert py_int py_float (type_ a) tok = Some v ->
  in_choices a v = true ->
  classify parser tok = Value /\
  parse_tokens py_int py_float parser (flag :: tok :: rest) ns seen extras
  = parse_tokens py_int py_float parser rest
                 (set_attr ns (dest a) v) (dest a :: seen) extras.
Proof.
  intros Hneg Hflag Hconv Hin.
  assert (Hval : classify parser tok = Value).
  { destruct (negative_number_not_option _ Hneg) as [Hf Hh].
    unfold classify. rewrite Hf, Hh, Hneg.
    destruct tok as [|c0 [|c1 r]]; [discriminate Hneg| |];
      destruct c0 as [[] [] [] [] [] [] [] []]; try discriminate Hneg;
      reflexivity. }
  split; [exact Hval|].
  cbn [parse_tokens]. rewrite (find_action_classify _ Hflag), Hval, Hconv, Hin.
  reflexivity.
Qed.

Lemma negative_number_is_a_value_witness :
  negative_number "-5" = true /\
  parse_args (fun s => if String.eqb s "-5" then Some (-5)
                       else Sample.py_int s)
             Sample.py_float parser
             ["-j"; "-5"; "-m"; "1"; "-i"; "in"; "-o"; "out"]
  = Parsed (set_attr
              (set_attr
                 (set_attr
                    (set_attr (map (fun a => (dest a, default a)) parser)
                              "job_id" (PInt (-5)))
                    "model_type" (PInt 1))
                 "data_dir" (PStr "in"))
              "output_dir" (PStr "out")).
Proof.
  split; [reflexivity|].
  unfold parse_args.
  rewrite (proj2 (@negative_number_is_a_value
             (fun s => if String.eqb s "-5" then Some (-5)
                       else Sample.py_int s)
             Sample.py_float "-j" "-5"
             ["-m"; "1"; "-i"; "in"; "-o"; "out"]
             (Argument ["-j"; "--job-id"] TInt None true PNone "job_id")
             (PInt (-5)) (map (fun a => (dest a, default a)) parser) []
             false eq_refl eq_refl eq_refl eq_refl)).
  reflexivity.
Defined.

(** ** Accepted command lines *)

Lemma convert_has_type (py_int : string -> option Z)
    (py_float : string -> option float) (t : arg_type) (s : string)
    (v : pyval) :
  convert py_int py_float t s = Some v -> has_type t v = true.
Proof.
  destruct t; cbn.
  - destruct (py_int s); [now intros [= <-] | discriminate].
  - now intros [= <-].
  - destruct (py_float s); [now intros [= <-] | discriminate].
Qed.

Lemma parser_initial_lookup (a : argument) :
  In a parser ->
  lookup (dest a) (map (fun a => (dest a, default a)) parser)
  = Some (default a).
Proof.
  intros Ha. cbn in Ha.
  repeat (destruct Ha as [<- | Ha]; [reflexivity|]). destruct Ha.
Qed.

Lemma parser_default_typed (a : argument) :
  In a parser -> required a = false -> has_type (type_ a) (default a) = true.
Proof.
  intros Ha. cbn in Ha.
  repeat (destruct Ha as [<- | Ha]; [cbn; congruence|]). destruct Ha.
Qed.

Section AcceptedFacts.
Variable py_int : string -> option Z.
Variable py_float : string -> option float.

Local Abbreviation parse_tokens := (MainPy.parse_tokens py_int py_float).
Local Abbreviation consumes := (Describe.consumes py_int py_float).

(** What an attribute holds: a value of the declared type once its option
    has been met, its default until then. *)
Lemma consumes_values (toks : list string)
    (ns ns' : namespace) (seen seen' : list string) :
  consumes parser toks ns seen ns' seen' ->
  (forall a, In a parser ->
     exists v, lookup (dest a) ns = Some v /\
       (In (dest a) seen -> has_type (type_ a) v = true) /\
       (~ In (dest a) seen -> v = default a)) ->
  forall a, In a parser ->
    exists v, lookup (dest a) ns' = Some v /\
      (In (dest a) seen' -> has_type (type_ a) v = true) /\
      (~ In (dest a) seen' -> v = default a).
Proof.
  induction 1 as [|tok arg rest a0 v0 ns ns' seen seen' Hf Hv Hc _ IH];
    intros Hinv; [exact Hinv|].
  apply IH. clear IH. intros a Ha.
  apply find_action_some in Hf. destruct Hf as [Ha0 _].
  destruct (String.eqb (dest a0) (dest a)) eqn:Hd.
  - apply String.eqb_eq in Hd.
    assert (a0 = a) as ->
      by (apply (injective_on_list dest parser parser_dest_nodup); assumption).
    exists v0. rewrite lookup_set_attr_same. split; [reflexivity|]. split.
    + intros _. exact (convert_has_type _ _ _ _ Hv).
    + intros Hn. exfalso. apply Hn. now left.
  - apply String.eqb_neq in Hd.
    destruct (Hinv a Ha) as (v & Hl & Ht & Hdef).
    exists v. rewrite lookup_set_attr_other by exact Hd.
    split; [exact Hl|]. split.
    + intros [He | Hs]; [contradiction | auto].
    + intros Hn. apply Hdef. intros Hs. apply Hn. now right.
Qed.

Lemma parsed_values (argv : list string) (ns : namespace) :
  parse_args py_int py_float parser argv = Parsed ns ->
  exists seen : list string,
    consumes parser argv (map (fun a => (dest a, default a)) parser) []
             ns seen /\
    (forall a, In a parser -> required a = true -> In (dest a) seen) /\
    forall a, In a parser ->
      exists v, lookup (dest a) ns = Some v /\
        (In (dest a) seen -> has_type (type_ a) v = true) /\
        (~ In (dest a) seen -> v = default a).
Proof.
  intros H. unfold parse_args in H.
  apply (@parse_tokens_consumes py_int py_float parser (List.length argv))
    in H; [|lia].
  destruct H as (_ & seen & Hcons & Hreq). exists seen.
  split; [exact Hcons|]. split; [exact Hreq|].
  apply (consumes_values Hcons). intros a Ha.
  exists (default a). split; [now apply parser_initial_lookup|].
  split; [intros []|reflexivity].
Qed.

Lemma parsed_attributes_are_typed_aux (argv : list string) (ns : namespace) :
  parse_args py_int py_float parser argv = Parsed ns ->
  forall a, In a parser ->
    exists v, lookup (dest a) ns = Some v /\ has_type (type_ a) v = true.
Proof.
  intros H a Ha. destruct (@parsed_values argv ns H) as (seen & _ & Hreq & Hval).
  destruct (Hval a Ha) as (v & Hl & Ht & Hd). exists v. split; [exact Hl|].
  destruct (in_dec string_dec (dest a) seen) as [Hs | Hs]; [auto|].
  rewrite (Hd Hs). apply parser_default_typed; [exact Ha|].
  destruct (required a) eqn:Hr; [|reflexivity].
  destruct (Hs (Hreq a Ha Hr)).
Qed.

(** X14. In the namespace of an accepted command line every attribute
    holds a value of the type its option declares: an [int] for the model
    type, the job id, the counts, the steps, the batch sizes and the cutoff
    length, a [str] for the two directories, a [float] for the learning
    rate; none is [None]. *)
Theorem parsed_attributes_are_typed (argv : list string) (ns : namespace) :
  parse_args py_int py_float parser argv = Parsed ns ->
  forall a, In a parser ->
    exists v, lookup (dest a) ns = Some v /\ has_type (type_ a) v = true.
Proof. exact (@parsed_attributes_are_typed_aux argv ns). Qed.


Lemma parse_tokens_step (tok : string) (rest : list string)
    (ns : namespace) (seen : list string) (extras : bool) :
  parse_tokens parser (tok :: rest) ns seen extras
  = match classify parser tok with
    | Option_ a =>
        match rest with
        | [] => Exited
        | arg :: rest' =>
            match classify parser arg with
            | Value =>
                match convert py_int py_float (type_ a) arg with
                | Some v =>
                    if in_choices a v
                    then parse_tokens parser rest' (set_attr ns (dest a) v)
                                      (dest a :: seen) extras
                    else Exited
                | None => Exited
                end
            | Other => Unmodelled
            | _ => Exited
            end
        end
    | Help => Exited
    | Value => parse_tokens parser rest ns seen true
    | Other => Unmodelled
    end.
Proof. reflexivity. Qed.

(** A run that has met a stray token is never accepted. *)
Lemma stray_token_is_fatal (toks : list string) (ns : namespace)
    (seen : list string) (ns' : namespace) :
  parse_tokens parser toks ns seen true <> Parsed ns'.
Proof.
  intros H.
  apply (@parse_tokens_consumes py_int py_float parser (List.length toks))
    in H; [|lia].
  destruct H as [H _]. discriminate H.
Qed.

Lemma last_option_wins_from (flag arg : string) (a : argument) (n : nat) :
  find_action parser flag = Some a ->
  forall pre : list string, (List.length pre <= n)%nat ->
  forall (ns : namespace) (seen : list string) (extras : bool)
         (ns' : namespace),
    parse_tokens parser (pre ++ [flag; arg]) ns seen extras = Parsed ns' ->
    exists v, convert py_int py_float (type_ a) arg = Some v /\
              lookup (dest a) ns' = Some v.
Proof.
  intros Hflag. pose proof (find_action_classify _ Hflag) as Hcl.
  induction n as [|n IH]; intros pre Hlen ns seen extras ns' H.
  - destruct pre; [|cbn in Hlen; lia]. cbn [app MainPy.parse_tokens] in H.
    rewrite Hcl in H.
    destruct (classify parser arg); try discriminate H.
    destruct (convert py_int py_float (type_ a) arg) as [v|]; [|discriminate H].
    destruct (in_choices a v); [|discriminate H].
    destruct (forallb _ parser && negb extras); [|discriminate H].
    injection H as <-. exists v. split; [reflexivity|].
    apply lookup_set_attr_same.
  - destruct pre as [|x [|y pre]].
    + apply (IH [] (Nat.le_0_l _) _ _ _ _ H).
    + cbn [app] in H. rewrite parse_tokens_step in H.
      destruct (classify parser x); try discriminate H.
      * rewrite Hcl in H. discriminate H.
      * now apply stray_token_is_fatal in H.
    + change ((x :: y :: pre) ++ [flag; arg])%list
        with (x :: y :: (pre ++ [flag; arg]))%list in H.
      rewrite parse_tokens_step in H.
      destruct (classify parser x) as [a'| | |]; try discriminate H.
      * destruct (classify parser y); try discriminate H.
        destruct (convert py_int py_float (type_ a') y) as [v'|];
          [|discriminate H].
        destruct (in_choices a' v'); [|discriminate H].
        apply IH in H; [exact H | cbn in Hlen; lia].
      * now apply stray_token_is_fatal in H.
Qed.

(** X16. When an option is given more than once, the last one wins: on an
    accepted command line that ends with an option and its argument, the
    attribute of that option is the converted argument, whatever came
    before. *)
Theorem last_option_wins
    (pre : list string) (flag arg : string) (a : argument) (ns : namespace) :
  find_action parser flag = Some a ->
  parse_args py_int py_float parser (pre ++ [flag; arg]) = Parsed ns ->
  exists v, convert py_int py_float (type_ a) arg = Some v /\
            lookup (dest a) ns = Some v.
Proof.
  intros Hflag H. unfold parse_args in H.
  exact (@last_option_wins_from flag arg a (List.length pre) Hflag pre
           (Nat.le_refl _) _ _ _ _ H).
Qed.



End AcceptedFacts.

Lemma parsed_attributes_are_typed_witness :
  parse_args Sample.py_int Sample.py_float parser Sample.argv
    = Parsed Sample.hparams /\
  exists v, lookup "learning_rate" Sample.hparams = Some v /\
            has_type TFloat v = true.
Proof.
  assert (H : parse_args Sample.py_int Sample.py_float parser Sample.argv
              = Parsed Sample.hparams) by reflexivity.
  split; [exact H|].
  apply (@parsed_attributes_are_typed Sample.py_int Sample.py_float
           Sample.argv Sample.hparams H
           (Argument ["-l"; "--learning-rate"] TFloat None false
                     (PFloat learning_rate_default) "learning_rate")).
  do 10 right. left. reflexivity.
Defined.


Lemma last_option_wins_witness :
  parse_args Sample.py_int Sample.py_float parser
             (["-j"; "1"; "-m"; "2"; "-i"; "in"; "-o"; "out"] ++ ["-j"; "9"])
    = Parsed (set_attr (set_attr Sample.hparams "data_dir" (PStr "in"))
                       "job_id" (PInt 9)) /\
  exists v, convert Sample.py_int Sample.py_float TInt "9" = Some v /\
            lookup "job_id"
              (set_attr (set_attr Sample.hparams "data_dir" (PStr "in"))
                        "job_id" (PInt 9)) = Some v.
Proof.
  assert (H : parse_args Sample.py_int Sample.py_float parser
                (["-j"; "1"; "-m"; "2"; "-i"; "in"; "-o"; "out"]
                 ++ ["-j"; "9"])
              = Parsed (set_attr (set_attr Sample.hparams "data_dir"
                                           (PStr "in"))
                                 "job_id" (PInt 9))) by reflexivity.
  split; [exact H|].
  exact (@last_option_wins Sample.py_int Sample.py_float
           ["-j"; "1"; "-m"; "2"; "-i"; "in"; "-o"; "out"] "-j" "9"
           (Argument ["-j"; "--job-id"] TInt None true PNone "job_id")
           _ eq_refl H).
Defined.



(** ** Runs of [main] *)

Section MainRunFacts.
Variable tensors : Type.
Variables get_input_fn_fnc get_input_fn_da : pyval -> input_fn tensors.
Variable py_int_truediv_500 : pyval -> result Z.

Local Abbreviation main :=
  (MainPy.main get_input_fn_fnc get_input_fn_da py_int_truediv_500).
Local Abbreviation iteration :=
  (MainPy.iteration get_input_fn_fnc get_input_fn_da py_int_truediv_500).

Lemma item_found (hparams : namespace) (key : string) (v : pyval)
    (trace : list (tf_call tensors)) :
  lookup key hparams = Some v -> item hparams key trace = (OK v, trace).
Proof. intros H. unfold item, lift. cbn [py_getitem]. now rewrite H. Qed.


Lemma turns_run (calls : Z -> list (tf_call tensors))
    (body : Z -> st (list (tf_call tensors)) unit) (turns : list Z) :
  (forall i trace, body i trace = (OK tt, (trace ++ calls i)%list)) ->
  forall trace,
    for_each (fun (_ : unit) i => body i) turns tt trace
    = (OK tt, (trace ++ flat_map calls turns)%list).
Proof.
  intros Hb. induction turns as [|i turns IH]; intros trace.
  - cbn. now rewrite app_nil_r.
  - cbn [for_each bind st_monad flat_map]. rewrite Hb, IH.
    now rewrite app_assoc.
Qed.

Lemma select_input_fn_run (hparams : namespace) (model_type : pyval)
    (trace : list (tf_call tensors)) :
  lookup "model_type" hparams = Some model_type ->
  select_input_fn get_input_fn_fnc get_input_fn_da hparams trace
  = (OK (if py_eq_int model_type 1 then Some get_input_fn_fnc
         else if py_eq_int model_type 2 then Some get_input_fn_da
         else None), trace).
Proof.
  intros H. unfold select_input_fn. cbn [bind st_monad].
  rewrite (item_found _ _ _ H).
  destruct (py_eq_int model_type 1); [reflexivity|].
  cbn [bind st_monad]. rewrite (item_found _ _ _ H).
  now destruct (py_eq_int model_type 2).
Qed.

Section OneRun.
Variable hparams : namespace.
Variables num_cores num_gpus job_id train_steps model_type : pyval.
Variable output_dir : string.
Variable k : Z.
Hypothesis Hout : lookup "output_dir" hparams = Some (PStr output_dir).
Hypothesis Hjob : lookup "job_id" hparams = Some job_id.
Hypothesis Hsteps : lookup "train_steps" hparams = Some train_steps.
Hypothesis Hmodel : lookup "model_type" hparams = Some model_type.
Hypothesis Hdiv : py_int_truediv_500 train_steps = OK k.

Lemma iteration_run (factory : pyval -> input_fn tensors) (i : Z)
    (trace : list (tf_call tensors)) :
  (if py_eq_int model_type 1 then Some get_input_fn_fnc
   else if py_eq_int model_type 2 then Some get_input_fn_da
   else None) = Some factory ->
  iteration hparams num_cores num_gpus i trace
  = (OK tt,
     (trace ++ iteration_calls factory hparams num_cores num_gpus
                               output_dir job_id train_steps k i)%list).
Proof.
  intros Hsel. unfold MainPy.iteration. cbn [bind st_monad].
  rewrite (item_found _ _ _ Hout). rewrite (item_found _ _ _ Hjob).
  unfold lift at 1. rewrite (item_found _ _ _ Hsteps).
  unfold lift at 1. rewrite Hdiv. unfold call at 1.
  rewrite (select_input_fn_run _ _ Hmodel), Hsel. cbn [use ret st_monad].
  rewrite (item_found _ _ _ Hsteps). unfold call, iteration_calls, HParams.
  now rewrite <- !app_assoc.
Qed.

Lemma iteration_unbound (i : Z) (trace : list (tf_call tensors)) :
  py_eq_int model_type 1 = false -> py_eq_int model_type 2 = false ->
  iteration hparams num_cores num_gpus i trace
  = (Raise UnboundLocalError,
     (trace ++ [Estimator_ (RunConfig (output_dir, job_id, i + 1)
                                      (num_cores, num_gpus) (k + 1))
                           hparams])%list).
Proof.
  intros H1 H2. unfold MainPy.iteration. cbn [bind st_monad].
  rewrite (item_found _ _ _ Hout). rewrite (item_found _ _ _ Hjob).
  unfold lift at 1. rewrite (item_found _ _ _ Hsteps).
  unfold lift at 1. rewrite Hdiv. unfold call at 1.
  rewrite (select_input_fn_run _ _ Hmodel), H1, H2. reflexivity.
Qed.

End OneRun.

(** The whole trace of a run of [main] that meets no error. *)
Lemma main_run
    (hparams : namespace) (num_cores num_gpus job_id train_steps : pyval)
    (model_type : pyval) (output_dir : string) (n k : Z) :
  lookup "num_cores" hparams = Some num_cores ->
  lookup "num_gpus" hparams = Some num_gpus ->
  lookup "repeats" hparams = Some (PInt n) ->
  lookup "output_dir" hparams = Some (PStr output_dir) ->
  lookup "job_id" hparams = Some job_id ->
  lookup "train_steps" hparams = Some train_steps ->
  lookup "model_type" hparams = Some model_type ->
  py_int_truediv_500 train_steps = OK k ->
  py_eq_int model_type 1 || py_eq_int model_type 2 = true ->
  let factory := if py_eq_int model_type 1 then get_input_fn_fnc
                 else get_input_fn_da in
  let trace :=
    flat_map (iteration_calls factory hparams num_cores num_gpus
                              output_dir job_id train_steps k)
             (map Z.of_nat (seq 0 (Z.to_nat n))) in
  main hparams [] = (OK tt, trace) /\
  List.length trace = (3 * Z.to_nat n)%nat.
Proof.
  intros Hnc Hng Hrep Hout Hjob Hsteps Hmodel Hdiv Hsel. cbv zeta. split.
  - unfold MainPy.main. cbn [bind st_monad].
    rewrite (item_found _ _ _ Hnc), (item_found _ _ _ Hng), (item_found _ _ _ Hrep).
    unfold lift. cbn [py_range].
    rewrite (turns_run
               (iteration_calls
                  (if py_eq_int model_type 1 then get_input_fn_fnc
                   else get_input_fn_da)
                  hparams num_cores num_gpus output_dir job_id train_steps k));
      [reflexivity|].
    intros i trace.
    eapply iteration_run;
      [exact Hout | exact Hjob | exact Hsteps | exact Hmodel | exact Hdiv|].
    destruct (py_eq_int model_type 1); [reflexivity|].
    cbn [orb] in Hsel. now rewrite Hsel.
  - assert (Hl : forall l : list Z,
              List.length
                (flat_map
                   (iteration_calls
                      (if py_eq_int model_type 1 then get_input_fn_fnc
                       else get_input_fn_da)
                      hparams num_cores num_gpus output_dir job_id
                      train_steps k) l)
              = (3 * List.length l)%nat).
    { clear. intros l. induction l as [|i l IH]; [reflexivity|].
      cbn [flat_map]. rewrite length_app, IH. cbn [iteration_calls List.length].
      lia. }
    rewrite Hl, length_map, length_seq. reflexivity.
Qed.

(** X18. A run of [main] on hyperparameters that hold the keys it reads,
    with a string output directory, an integer repeat count n, a model
    type equal to 1 or 2 and [int(train_steps / 500) = k]: [main] returns
    after exactly three framework calls per repeat, in this order for
    i = 0 .. n-1: an estimator whose directory is numbered i+1, whose
    [keep_checkpoint_max] is k+1 and whose parameters are the
    hyperparameters, then [train_and_evaluate] and [evaluate] with input
    functions all made by [get_input_fn_fnc] for model type 1 and by
    [get_input_fn_da] for model type 2. *)
Theorem main_trace
    (hparams : namespace) (num_cores num_gpus job_id train_steps : pyval)
    (model_type : pyval) (output_dir : string) (n k : Z) :
  lookup "num_cores" hparams = Some num_cores ->
  lookup "num_gpus" hparams = Some num_gpus ->
  lookup "repeats" hparams = Some (PInt n) ->
  lookup "output_dir" hparams = Some (PStr output_dir) ->
  lookup "job_id" hparams = Some job_id ->
  lookup "train_steps" hparams = Some train_steps ->
  lookup "model_type" hparams = Some model_type ->
  py_int_truediv_500 train_steps = OK k ->
  py_eq_int model_type 1 || py_eq_int model_type 2 = true ->
  let factory := if py_eq_int model_type 1 then get_input_fn_fnc
                 else get_input_fn_da in
  let trace :=
    flat_map (iteration_calls factory hparams num_cores num_gpus
                              output_dir job_id train_steps k)
             (map Z.of_nat (seq 0 (Z.to_nat n))) in
  main hparams [] = (OK tt, trace) /\
  List.length trace = (3 * Z.to_nat n)%nat.
Proof.
  intros Hnc Hng Hrep Hout Hjob Hsteps Hmodel Hdiv Hsel.
  exact (main_run _ Hnc Hng Hrep Hout Hjob Hsteps Hmodel Hdiv Hsel).
Qed.



(** X20. With a model type that is neither 1 nor 2 and at least one
    repeat, [main] builds the first estimator and then raises
    [UnboundLocalError] at line 101: no branch of lines 93-96 has bound
    [get_input_fn]. *)
Theorem main_unbound_input_fn
    (hparams : namespace) (num_cores num_gpus job_id train_steps : pyval)
    (model_type : pyval) (output_dir : string) (n k : Z) :
  lookup "num_cores" hparams = Some num_cores ->
  lookup "num_gpus" hparams = Some num_gpus ->
  lookup "repeats" hparams = Some (PInt n) ->
  lookup "output_dir" hparams = Some (PStr output_dir) ->
  lookup "job_id" hparams = Some job_id ->
  lookup "train_steps" hparams = Some train_steps ->
  lookup "model_type" hparams = Some model_type ->
  py_int_truediv_500 train_steps = OK k ->
  0 < n ->
  py_eq_int model_type 1 = false -> py_eq_int model_type 2 = false ->
  main hparams []
  = (Raise UnboundLocalError,
     [Estimator_ (RunConfig (output_dir, job_id, 1) (num_cores, num_gpus)
                            (k + 1))
                 hparams]).
Proof.
  intros Hnc Hng Hrep Hout Hjob Hsteps Hmodel Hdiv Hn H1 H2.
  unfold MainPy.main. cbn [bind st_monad].
  rewrite (item_found _ _ _ Hnc), (item_found _ _ _ Hng), (item_found _ _ _ Hrep).
  unfold lift. cbn [py_range].
  destruct (Z.to_nat n) as [|m] eqn:Hm; [lia|].
  cbn [seq map for_each bind st_monad].
  erewrite iteration_unbound by eassumption. reflexivity.
Qed.


End MainRunFacts.


Lemma main_trace_witness :
  MainPy.main (get_input_fn unit) (get_input_fn_nli Sample.tf_pipeline)
              Sample.py_int_truediv_500 Sample.hparams []
  = (OK tt,
     [Estimator_ (RunConfig ("out", PInt 7, 1) (PInt 4, PInt 1) 1)
                 Sample.hparams;
      TrainAndEvaluate (get_input_fn_nli Sample.tf_pipeline (PStr "train"))
                       (PInt 100)
                       (get_input_fn_nli Sample.tf_pipeline (PStr "eval"));
      Evaluate (get_input_fn_nli Sample.tf_pipeline (PStr "predict"))]).
Proof.
  exact (proj1 (@main_trace unit (get_input_fn unit)
                  (get_input_fn_nli Sample.tf_pipeline)
                  Sample.py_int_truediv_500 Sample.hparams
                  (PInt 4) (PInt 1) (PInt 7) (PInt 100) (PInt 2) "out" 1 0
                  eq_refl eq_refl eq_refl eq_refl eq_refl eq_refl eq_refl
                  eq_refl eq_refl)).
Defined.


Lemma main_unbound_input_fn_witness :
  let hparams := set_attr Sample.hparams "model_type" (PInt 3) in
  py_eq_int (PInt 3) 1 = false /\ py_eq_int (PInt 3) 2 = false /\
  MainPy.main (get_input_fn unit) (get_input_fn unit)
              Sample.py_int_truediv_500 hparams []
  = (Raise UnboundLocalError,
     [Estimator_ (RunConfig ("out", PInt 7, 1) (PInt 4, PInt 1) 1) hparams]).
Proof.
  cbv zeta. split; [reflexivity|]. split; [reflexivity|].
  exact (@main_unbound_input_fn unit (get_input_fn unit) (get_input_fn unit)
           Sample.py_int_truediv_500
           (set_attr Sample.hparams "model_type" (PInt 3))
           (PInt 4) (PInt 1) (PInt 7) (PInt 100) (PInt 3) "out" 1 0
           eq_refl eq_refl eq_refl eq_refl eq_refl eq_refl eq_refl eq_refl
           eq_refl eq_refl eq_refl).
Defined.

(** ** From the command line to the framework *)



Section CommandLineRun.
Variable py_int : string -> option Z.
Variable py_float : string -> option float.
Variable tensors : Type.
Variables get_input_fn_fnc get_input_fn_da : pyval -> input_fn tensors.
Variable py_int_truediv_500 : pyval -> result Z.



End CommandLineRun.

